(** * The Xata vector-store handler

    A shallow embedding of
    [mindsdb/integrations/handlers/xata_handler/xata_handler.py]
    (class [XataHandler]) and the properties of its connection state
    machine, table provisioning, insert routing, select and delete.

    Conventions of the embedding.
    - Python values that travel through the handler untouched are kept in
      an untyped value tree [pyval]; the handler never computes with a
      float, which is carried as its literal.
    - The remote store and its client library are an oracle [Backend]:
      one reply function per client call.  A reply is either an exception
      or a value.  Every call the handler issues is recorded, in order, in
      a trace of [Call]s, so that "which backend call was made, with which
      arguments" is a statement about the trace.
    - A handler method is a computation in the monad [M]: it yields the
      trace of calls together with either the returned value or the
      exception that left the method.
    - [log.logger.error] only writes to the log and is left out. *)

From Stdlib Require Import String List ZArith Bool Lia.
Import ListNotations.
Open Scope list_scope.
Open Scope string_scope.

Set Implicit Arguments.
Set Warnings "-register-all".

(** ** Python values and exceptions *)

Inductive pyval : Type :=
| VNone
| VBool (b : bool)
| VInt (z : Z)
| VStr (s : string)
| VFloat (literal : string)
| VList (items : list pyval)
| VDict (items : list (string * pyval)).

(** An insertion-ordered dictionary with string keys. *)
Definition dict (V : Type) : Type := list (string * V).

Fixpoint dict_get {V} (d : dict V) (k : string) : option V :=
  match d with
  | [] => None
  | (k', v) :: d' => if String.eqb k' k then Some v else dict_get d' k
  end.

(** [d[k] = v]: an existing key keeps its position, a new key goes last. *)
Fixpoint dict_set {V} (d : dict V) (k : string) (v : V) : dict V :=
  match d with
  | [] => [(k, v)]
  | (k', v') :: d' =>
      if String.eqb k' k then (k', v) :: d' else (k', v') :: dict_set d' k v
  end.

(** [del d[k]] for a key that is present. *)
Fixpoint dict_del {V} (d : dict V) (k : string) : dict V :=
  match d with
  | [] => []
  | (k', v') :: d' =>
      if String.eqb k' k then d' else (k', v') :: dict_del d' k
  end.

Definition dict_keys {V} (d : dict V) : list string := map fst d.

(** [k in d] *)
Definition dict_mem {V} (d : dict V) (k : string) : bool :=
  match dict_get d k with Some _ => true | None => false end.

(** [d.get(k, default)] *)
Definition dict_get_default {V} (d : dict V) (k : string) (default : V) : V :=
  match dict_get d k with Some v => v | None => default end.

(** [x in l] for a list of strings. *)
Definition str_in (x : string) (l : list string) : bool :=
  existsb (String.eqb x) l.

(** The exceptions that occur.  All of them are subclasses of Python's
    [Exception], so an [except Exception] clause catches each of them.
    [PyException] is a plain [Exception(msg)]; [ClientError] stands for
    whatever the client library raises. *)
Inductive exn : Type :=
| AttributeError (msg : string)
| KeyError (key : string)
| IndexError (msg : string)
| TypeError (msg : string)
| ValueError (msg : string)
| PyException (msg : string)
| ClientError (msg : string).

(** [str(e)]; a [KeyError] prints the repr of its key. *)
Definition str_exn (e : exn) : string :=
  match e with
  | AttributeError m | IndexError m | TypeError m | ValueError m
  | PyException m | ClientError m => m
  | KeyError k => "'" ++ k ++ "'"
  end.

(** ** Names imported from the handler library *)

(** Modelled from the spec: the enum [TableField] of
    [mindsdb.integrations.libs.vectordatabase_handler] is not part of the
    sources at hand.  The spec names the reserved columns [id], [content],
    [metadata], [embeddings], [search_vector] and [distance]. *)
Module TableField.
Definition ID : string := "id".
Definition CONTENT : string := "content".
Definition EMBEDDINGS : string := "embeddings".
Definition METADATA : string := "metadata".
Definition SEARCH_VECTOR : string := "search_vector".
Definition DISTANCE : string := "distance".
End TableField.

(** Modelled from the spec: [FilterOperator] and [FilterCondition] of the
    same missing module; the spec lists the operators below and describes
    a condition as column, operator and value. *)
Inductive FilterOperator : Type :=
| EQUAL | NOT_EQUAL | LESS_THAN | GREATER_THAN | IN.

Record FilterCondition : Type := mkFilterCondition {
  column : string;
  op : FilterOperator;
  value : pyval
}.

(** The backend's native filter expression: a conjunction of comparisons. *)
Inductive FilterExpr : Type :=
| FAnd (comparisons : list (string * FilterOperator * pyval)).

(** Modelled from the spec: [RESPONSE_TYPE], [HandlerResponse] and
    [HandlerStatusResponse] of [mindsdb.integrations.libs.response]. *)
Inductive RESPONSE_TYPE : Type := OK | TABLE | ERROR.

(** What [pd.DataFrame(payload)] holds: named columns, in order. *)
Record DataFrame : Type := mkDataFrame {
  df_data : dict (list pyval)
}.

Definition df_columns (df : DataFrame) : list string := dict_keys (df_data df).

Record Response : Type := mkResponse {
  resp_type : RESPONSE_TYPE;
  data_frame : option DataFrame;
  error_message : option string
}.

Definition Response_OK : Response := mkResponse OK None None.
Definition Response_TABLE (df : DataFrame) : Response := mkResponse TABLE (Some df) None.
Definition Response_ERROR (msg : string) : Response := mkResponse ERROR None (Some msg).

Record StatusResponse : Type := mkStatusResponse {
  success : bool;
  status_error_message : option string
}.

(** ** The client library *)

Record ClientConfig : Type := mkClientConfig {
  cfg_db_url : option pyval;
  cfg_api_key : option pyval
}.

Record Client : Type := mkClient { client_config : ClientConfig }.

Record Collection : Type := mkCollection { collection_name : string }.

(** One column of a [set_schema] payload. *)
Record ColumnSpec : Type := mkColumnSpec {
  col_name : string;
  col_type : string;
  col_vector_dimension : option pyval
}.

(** A record response of the client: [is_success()] and the [message] key. *)
Record ApiResponse : Type := mkApiResponse {
  is_success : bool;
  message : option string
}.

Record QueryPayload : Type := mkQueryPayload {
  q_where : option FilterExpr;
  q_query_embeddings : pyval;
  q_include : list string;
  q_n_results : option Z
}.

(** A similarity answer holds one batch per query embedding. *)
Record QueryResult : Type := mkQueryResult {
  qr_ids : list (list pyval);
  qr_documents : list (list pyval);
  qr_metadatas : list (list pyval);
  qr_distances : list (list pyval)
}.

Record GetResult : Type := mkGetResult {
  gr_ids : list pyval;
  gr_documents : list pyval;
  gr_metadatas : list pyval
}.

(** A row of [data.to_dict("records")]. *)
Definition record : Type := dict pyval.

(** The calls the handler makes on the client, with their arguments. *)
Inductive Call : Type :=
| CXataClient (config : ClientConfig)
| CUsersGet
| CTableCreate (table_name : string)
| CTableSetSchema (table_name : string) (columns : list ColumnSpec)
| CTableDelete (table_name : string)
| CPutRecords (table_name : string) (records : list record)
| CFlushQueue
| CInsertWithId (table_name : string) (record_id : pyval) (payload : record)
                (create_only : bool) (columns : option (list string))
| CInsert (table_name : string) (payload : record) (columns : option (list string))
| CGetCollection (table_name : string)
| CQuery (c : Collection) (payload : QueryPayload)
| CGet (c : Collection) (ids : option (list pyval)) (where_ : option FilterExpr)
       (limit offset : option Z)
| CDelete (c : Collection) (ids : option (list pyval)) (where_ : option FilterExpr).

(** The remote store seen through the client: the reply to each call. *)
Record Backend : Type := mkBackend {
  be_XataClient : ClientConfig -> exn + Client;
  be_users_get : Client -> exn + unit;
  be_table_create : Client -> string -> exn + unit;
  be_table_set_schema : Client -> string -> list ColumnSpec -> exn + unit;
  be_table_delete : Client -> string -> exn + unit;
  be_put_records : Client -> string -> list record -> exn + unit;
  be_flush_queue : Client -> exn + unit;
  be_insert_with_id :
    Client -> string -> pyval -> record -> bool -> option (list string) ->
    exn + ApiResponse;
  be_insert : Client -> string -> record -> option (list string) -> exn + ApiResponse;
  be_get_collection : Client -> string -> exn + Collection;
  be_query : Collection -> QueryPayload -> exn + QueryResult;
  be_get :
    Collection -> option (list pyval) -> option FilterExpr -> option Z -> option Z ->
    exn + GetResult;
  be_delete : Collection -> option (list pyval) -> option FilterExpr -> exn + unit
}.

(** ** Computations: a trace of calls and a result or an exception *)

Inductive outcome (A : Type) : Type :=
| Returned (a : A)
| Raised (e : exn).
Arguments Returned {A} a.
Arguments Raised {A} e.

Definition M (A : Type) : Type := (list Call * outcome A)%type.

Definition ret {A} (a : A) : M A := ([], Returned a).

Definition raise {A} (e : exn) : M A := ([], Raised e).

Definition bind {A B} (m : M A) (k : A -> M B) : M B :=
  match m with
  | (tr, Returned a) => let '(tr', r) := k a in ((tr ++ tr')%list, r)
  | (tr, Raised e) => (tr, Raised e)
  end.

(** [try: body / except Exception as e: handler e] *)
Definition try_except {A} (body : M A) (handler : exn -> M A) : M A :=
  match body with
  | (tr, Raised e) => let '(tr', r) := handler e in ((tr ++ tr')%list, r)
  | (tr, Returned a) => (tr, Returned a)
  end.

(** A client call: it is recorded, and its reply decides how it ends. *)
Definition call {A} (c : Call) (reply : exn + A) : M A :=
  ([c], match reply with inl e => Raised e | inr a => Returned a end).

(** A pure step that may raise. *)
Definition lift {A} (r : exn + A) : M A :=
  match r with inl e => raise e | inr a => ret a end.

Declare Scope py_scope.
Delimit Scope py_scope with py.
Notation "x <- m ;; k" := (bind m (fun x => k))
  (at level 61, m at next level, right associativity) : py_scope.
Notation "m ;; k" := (bind m (fun _ => k))
  (at level 61, right associativity) : py_scope.
Open Scope py_scope.

Definition trace {A} (m : M A) : list Call := fst m.
Definition result {A} (m : M A) : outcome A := snd m.

(** ** The handler object *)

Record XataHandler : Type := mkXataHandler {
  _connection_data : dict pyval;
  _client_config : ClientConfig;
  _create_table_params : dict pyval;
  _client : option Client;
  is_connected : bool
}.

Definition set_client (self : XataHandler) (c : option Client) : XataHandler :=
  mkXataHandler (_connection_data self) (_client_config self)
                (_create_table_params self) c (is_connected self).

Definition set_is_connected (self : XataHandler) (b : bool) : XataHandler :=
  mkXataHandler (_connection_data self) (_client_config self)
                (_create_table_params self) (_client self) b.

(** [self._client.<attr>]: [None] has no attributes. *)
Definition client_attr (self : XataHandler) (attr : string) : M Client :=
  match _client self with
  | Some c => ret c
  | None => raise (AttributeError
                     ("'NoneType' object has no attribute '" ++ attr ++ "'"))
  end.

Section Handler.

Variable be : Backend.

(** *** Connection management *)

(** [connect], lines 46-56.  The method returns the client (or [None]
    after a failure); only its effect on the object is kept. *)
Definition connect (self : XataHandler) : list Call * XataHandler :=
  if is_connected self then ([], self)
  else
    match be_XataClient be (_client_config self) with
    | inr c => ([CXataClient (_client_config self)],
                set_is_connected (set_client self (Some c)) true)
    | inl _ => ([CXataClient (_client_config self)],
                set_is_connected self false)
    end.

(** [disconnect], lines 58-63. *)
Definition disconnect (self : XataHandler) : XataHandler :=
  if negb (is_connected self) then self
  else set_is_connected (set_client self None) false.

(** [__init__], lines 28-40.  The dimension for [create_table] is looked
    up under the key ["db_url"], with 8 as the default. *)
Definition init (connection_data : dict pyval) : list Call * XataHandler :=
  connect
    (mkXataHandler
       connection_data
       (mkClientConfig (dict_get connection_data "db_url")
                       (dict_get connection_data "api_key"))
       [("dimension", dict_get_default connection_data "db_url" (VInt 8))]
       None
       false).

(** The probe of [check_connection], line 72. *)
Definition probe (self : XataHandler) : M unit :=
  c <- client_attr self "users" ;;
  call CUsersGet (be_users_get be c).

(** [check_connection], lines 65-82: the [try] body, the [except] clause
    and then the [finally] block. *)
Definition check_connection (self : XataHandler)
  : list Call * XataHandler * StatusResponse :=
  let response_code := mkStatusResponse false None in
  let need_to_close := negb (is_connected self) in
  let '(tr, r) := probe self in
  let response_code :=
    match r with
    | Returned _ => mkStatusResponse true (status_error_message response_code)
    | Raised e => mkStatusResponse (success response_code) (Some (str_exn e))
    end in
  let self :=
    if success response_code && need_to_close then disconnect self else self in
  let self :=
    if negb (success response_code) && is_connected self
    then set_is_connected self false else self in
  (tr, self, response_code).

(** *** Table provisioning *)

(** [create_table], lines 84-107. *)
Definition create_table (self : XataHandler) (table_name : string) : M Response :=
  try_except
    (c <- client_attr self "table" ;;
     call (CTableCreate table_name) (be_table_create be c table_name) ;;
     c <- client_attr self "table" ;;
     dimension <- lift (match dict_get (_create_table_params self) "dimension" with
                        | Some d => inr d
                        | None => inl (KeyError "dimension")
                        end) ;;
     let columns :=
       [ mkColumnSpec "embeddings" "vector" (Some dimension);
         mkColumnSpec "content" "text" None;
         mkColumnSpec "metadata" "json" None ] in
     call (CTableSetSchema table_name columns)
          (be_table_set_schema be c table_name columns) ;;
     ret Response_OK)
    (fun e => ret (Response_ERROR
                     ("Unable to create table '" ++ table_name ++ "': " ++ str_exn e))).

(** [drop_table], lines 109-118. *)
Definition drop_table (self : XataHandler) (table_name : string) : M Response :=
  try_except
    (c <- client_attr self "table" ;;
     call (CTableDelete table_name) (be_table_delete be c table_name) ;;
     ret Response_OK)
    (fun e => ret (Response_ERROR
                     ("Error deleting table '" ++ table_name ++ "': " ++ str_exn e))).

End Handler.

(** [__init__] as it is called, lines 28-40: [kwargs.get("connection_data")]
    is [None] when the keyword is not given, and line 32 then asks [None]
    for [get], before [connect] and outside its [try]. *)
Definition init_kwargs (be : Backend) (connection_data : option (dict pyval))
  : M XataHandler :=
  match connection_data with
  | None => raise (AttributeError "'NoneType' object has no attribute 'get'")
  | Some data => (fst (init be data), Returned (snd (init be data)))
  end.

(** ** Data frames and Python lists *)

Definition df_len (df : DataFrame) : nat :=
  match df_data df with
  | [] => 0
  | (_, col) :: _ => length col
  end.

Definition df_row (df : DataFrame) (i : nat) : record :=
  map (fun kv => (fst kv, nth i (snd kv) VNone)) (df_data df).

(** [data.to_dict("records")]: one dictionary per row. *)
Definition to_dict_records (df : DataFrame) : list record :=
  map (df_row df) (seq 0 (df_len df)).

(** [pd.DataFrame(payload)] for a dictionary of lists: the lists must
    agree in length. *)
Definition same_length (payload : dict (list pyval)) : bool :=
  match payload with
  | [] => true
  | (_, c) :: rest => forallb (fun kv => length (snd kv) =? length c)%nat rest
  end.

Definition pd_DataFrame (payload : dict (list pyval)) : exn + DataFrame :=
  if same_length payload then inr (mkDataFrame payload)
  else inl (ValueError "All arrays must be of the same length").

(** [data.columns] where [data] is a Python list: a list has no such
    attribute. *)
Definition list_attr_columns (data : list record) : exn + list string :=
  inl (AttributeError "'list' object has no attribute 'columns'").

(** [data["metadata"] = data["metadata"].apply(json.loads)] where [data]
    is a Python list: a list cannot be indexed by a string. *)
Definition list_apply_json_loads (data : list record) : exn + list record :=
  inl (TypeError "list indices must be integers or slices, not str").

(** [l[0]] *)
Definition index0 {A} (l : list A) : exn + A :=
  match l with
  | x :: _ => inr x
  | [] => inl (IndexError "list index out of range")
  end.

(** [d[k]] *)
Definition dict_item {V} (d : dict V) (k : string) : exn + V :=
  match dict_get d k with
  | Some v => inr v
  | None => inl (KeyError k)
  end.

(** [l or None] *)
Definition or_None {A} (l : list A) : option (list A) :=
  match l with
  | [] => None
  | _ :: _ => Some l
  end.

(** [x in columns] where [columns] may be [None]. *)
Definition in_columns (x : string) (columns : option (list string)) : exn + bool :=
  match columns with
  | Some l => inr (str_in x l)
  | None => inl (TypeError "argument of type 'NoneType' is not iterable")
  end.

(** [resp["message"]] *)
Definition resp_message (resp : ApiResponse) : exn + string :=
  match message resp with
  | Some m => inr m
  | None => inl (KeyError "message")
  end.

(** The dictionary comprehension of lines 287-291,
    [{column: payload[column] for column in columns if column != EMBEDDINGS}],
    with [acc] the dictionary built so far. *)
Fixpoint project_from (columns : list string) (payload acc : dict (list pyval))
  : exn + dict (list pyval) :=
  match columns with
  | [] => inr acc
  | c :: rest =>
      if String.eqb c TableField.EMBEDDINGS then project_from rest payload acc
      else
        match dict_get payload c with
        | Some v => project_from rest payload (dict_set acc c v)
        | None => inl (KeyError c)
        end
  end.

Definition project (columns : list string) (payload : dict (list pyval))
  : exn + dict (list pyval) :=
  project_from columns payload [].

Section Operations.

Variable be : Backend.

(** [self._translate_metadata_condition] is inherited and not part of the
    sources at hand; the methods below are stated for any translation. *)
Variable _translate_metadata_condition :
  option (list FilterCondition) -> option FilterExpr.

(** *** insert *)

Definition insert_error (table_name : string) (e : exn) : M Response :=
  ret (Response_ERROR
         ("Error inserting data into '" ++ table_name ++ "': " ++ str_exn e)).

(** Lines 159-208 of [insert]: the choice of the write path, once [data]
    is the list of records.  The bulk processor of line 162 is built
    around [self._client] and works through it; its two calls are given
    for a handler that has a client, and without one the branch is made to
    fail inside its [try] like the other two. *)
Definition insert_dispatch (self : XataHandler) (table_name : string)
    (data : list record) (columns : option (list string)) : M Response :=
  if (1 <? length data)%nat then
    try_except
      (c <- client_attr self "records" ;;
       call (CPutRecords table_name data) (be_put_records be c table_name data) ;;
       call CFlushQueue (be_flush_queue be c) ;;
       ret Response_OK)
      (insert_error table_name)
  else if (length data =? 0)%nat then
    ret Response_OK
  else
    row <- lift (index0 data) ;;
    with_id <- (if dict_mem row "id"
                then lift (in_columns TableField.ID columns)
                else ret false) ;;
    if with_id then
      id <- lift (dict_item row "id") ;;
      let rest_of_data := dict_del row "id" in
      try_except
        (c <- client_attr self "records" ;;
         resp <- call (CInsertWithId table_name id rest_of_data true columns)
                      (be_insert_with_id be c table_name id rest_of_data true columns) ;;
         (if negb (is_success resp)
          then m <- lift (resp_message resp) ;; raise (PyException m)
          else ret tt) ;;
         ret Response_OK)
        (insert_error table_name)
    else
      try_except
        (c <- client_attr self "records" ;;
         resp <- call (CInsert table_name row columns)
                      (be_insert be c table_name row columns) ;;
         (if negb (is_success resp)
          then m <- lift (resp_message resp) ;; raise (PyException m)
          else ret tt) ;;
         ret Response_OK)
        (insert_error table_name).

(** [insert], lines 152-208.  Line 155 rebinds [data] to the list of
    records; lines 157-158 then treat that list as the data frame. *)
Definition insert (self : XataHandler) (table_name : string)
    (data : DataFrame) (columns : option (list string)) : M Response :=
  let data := to_dict_records data in
  data_columns <- lift (list_attr_columns data) ;;
  data <- (if str_in "metadata" data_columns
           then lift (list_apply_json_loads data)
           else ret data) ;;
  insert_dispatch self table_name data columns.

(** *** select *)

Definition is_search_vector (c : FilterCondition) : bool :=
  String.eqb (column c) TableField.SEARCH_VECTOR.

Definition is_id (c : FilterCondition) : bool :=
  String.eqb (column c) TableField.ID.

(** Lines 228-240: the first condition on the search vector, if any. *)
Definition vector_filter_of (conditions : option (list FilterCondition))
  : option FilterCondition :=
  let vector_filter :=
    match conditions with
    | None => []
    | Some cs => filter is_search_vector cs
    end in
  if (0 <? length vector_filter)%nat then
    match vector_filter with c :: _ => Some c | [] => None end
  else None.

(** Lines 241-247. *)
Definition id_filters_of (conditions : option (list FilterCondition))
  : option (list pyval) :=
  match conditions with
  | None => None
  | Some cs => or_None (map value (filter is_id cs))
  end.

(** The four lists that lines 262-265 and 274-277 bind: [ids],
    [documents], [metadatas] and [distances] ([None] on the plain path). *)
Definition Fetched : Type :=
  (list pyval * list pyval * list pyval * option (list pyval))%type.

(** Lines 225-277 of [select]: the collection handle, the filters and the
    one query that is run. *)
Definition select_fetch (self : XataHandler) (table_name : string)
    (conditions : option (list FilterCondition))
    (offset limit : option Z) : M Fetched :=
  c <- client_attr self "get_collection" ;;
  collection <- call (CGetCollection table_name) (be_get_collection be c table_name) ;;
  let filters := _translate_metadata_condition conditions in
  let vector_filter := vector_filter_of conditions in
  let id_filters := id_filters_of conditions in
  match vector_filter with
  | Some vf =>
      (* similarity search *)
      let query_payload :=
        mkQueryPayload filters (value vf)
                       ["metadatas"; "documents"; "distances"] limit in
      result <- call (CQuery collection query_payload)
                     (be_query be collection query_payload) ;;
      ids <- lift (index0 (qr_ids result)) ;;
      documents <- lift (index0 (qr_documents result)) ;;
      metadatas <- lift (index0 (qr_metadatas result)) ;;
      distances <- lift (index0 (qr_distances result)) ;;
      ret (ids, documents, metadatas, Some distances)
  | None =>
      (* general get query *)
      result <- call (CGet collection id_filters filters limit offset)
                     (be_get be collection id_filters filters limit offset) ;;
      ret (gr_ids result, gr_documents result, gr_metadatas result, None)
  end.

(** Lines 280-284. *)
Definition uniform_payload (ids documents metadatas : list pyval)
  : dict (list pyval) :=
  [ (TableField.ID, ids);
    (TableField.CONTENT, documents);
    (TableField.METADATA, metadatas) ].

(** Lines 279-296 of [select]: projection, then the distance column, then
    the data frame. *)
Definition select_frame (columns : option (list string)) (fetched : Fetched)
  : exn + DataFrame :=
  let '(ids, documents, metadatas, distances) := fetched in
  let payload := uniform_payload ids documents metadatas in
  match (match columns with
         | Some cols => project cols payload
         | None => inr payload
         end) with
  | inl e => inl e
  | inr payload =>
      (* always include distance *)
      let payload :=
        match distances with
        | Some d => dict_set payload TableField.DISTANCE d
        | None => payload
        end in
      pd_DataFrame payload
  end.

(** [select], lines 217-297. *)
Definition select (self : XataHandler) (table_name : string)
    (columns : option (list string))
    (conditions : option (list FilterCondition))
    (offset limit : option Z) : M Response :=
  fetched <- select_fetch self table_name conditions offset limit ;;
  result_df <- lift (select_frame columns fetched) ;;
  ret (Response_TABLE result_df).

(** *** delete *)

(** [delete], lines 308-323.  The comprehension of lines 313-317 iterates
    over [conditions] without a test for [None]. *)
Definition delete (self : XataHandler) (table_name : string)
    (conditions : option (list FilterCondition)) : M Response :=
  let filters := _translate_metadata_condition conditions in
  id_filters <- match conditions with
                | Some cs => ret (or_None (map value (filter is_id cs)))
                | None => raise (TypeError "'NoneType' object is not iterable")
                end ;;
  match filters, id_filters with
  | None, None => raise (PyException "Delete query must have at least one condition!")
  | _, _ =>
      c <- client_attr self "get_collection" ;;
      collection <- call (CGetCollection table_name) (be_get_collection be c table_name) ;;
      call (CDelete collection id_filters filters)
           (be_delete be collection id_filters filters) ;;
      ret Response_OK
  end.

End Operations.

(** Modelled from the spec: [_translate_metadata_condition] is inherited
    from the vector-store base class, which is not part of the sources at
    hand.  By the spec an absent or empty list gives no expression,
    conditions on the search vector and on the id are left out, and the
    remaining conditions are conjoined operator for operator. *)
Definition translate_metadata_condition (conditions : option (list FilterCondition))
  : option FilterExpr :=
  match conditions with
  | None => None
  | Some cs =>
      match filter (fun c => negb (is_search_vector c) && negb (is_id c)) cs with
      | [] => None
      | c :: rest => Some (FAnd (map (fun c => (column c, op c, value c)) (c :: rest)))
      end
  end.

(** ** Vocabulary of the statements *)

Definition cc_state (r : list Call * XataHandler * StatusResponse) : XataHandler :=
  snd (fst r).

Definition cc_status (r : list Call * XataHandler * StatusResponse) : StatusResponse :=
  snd r.

(** The condition list holds a condition on the reserved search-vector
    column. *)
Definition targets_search_vector (conditions : option (list FilterCondition)) : Prop :=
  exists cs c, conditions = Some cs /\ In c cs /\ column c = TableField.SEARCH_VECTOR.

(** The columns that the projection of [select] can look up or skip. *)
Definition projectable (c : string) : Prop :=
  c = TableField.EMBEDDINGS \/ c = TableField.ID \/
  c = TableField.CONTENT \/ c = TableField.METADATA.

Definition projectableb (c : string) : bool :=
  String.eqb c TableField.EMBEDDINGS || String.eqb c TableField.ID ||
  String.eqb c TableField.CONTENT || String.eqb c TableField.METADATA.



Definition is_delete (c : Call) : bool :=
  match c with CDelete _ _ _ => true | _ => false end.

(** ** Sample stores for the worked runs *)

Definition sample_connection_data : dict pyval :=
  [ ("db_url", VStr "https://ws.us-east-1.xata.sh/db/docs");
    ("api_key", VStr "xau_key");
    ("dimension", VInt 16) ].

Definition sample_query_result : QueryResult :=
  mkQueryResult
    [[VStr "a"; VStr "b"]]
    [[VStr "alpha"; VStr "beta"]]
    [[VDict [("k", VInt 1)]; VDict []]]
    [[VFloat "0.1"; VFloat "0.4"]].

Definition sample_get_result : GetResult :=
  mkGetResult
    [VStr "a"; VStr "b"]
    [VStr "alpha"; VStr "beta"]
    [VDict [("k", VInt 1)]; VDict []].

(** A store that answers every call. *)
Definition be_ok : Backend :=
  mkBackend
    (fun cfg => inr (mkClient cfg))
    (fun _ => inr tt)
    (fun _ _ => inr tt)
    (fun _ _ _ => inr tt)
    (fun _ _ => inr tt)
    (fun _ _ _ => inr tt)
    (fun _ => inr tt)
    (fun _ _ _ _ _ _ => inr (mkApiResponse true None))
    (fun _ _ _ _ => inr (mkApiResponse true None))
    (fun _ t => inr (mkCollection t))
    (fun _ _ => inr sample_query_result)
    (fun _ _ _ _ _ => inr sample_get_result)
    (fun _ _ _ => inr tt).

(** A store that cannot be reached: every call raises. *)
Definition be_down : Backend :=
  let e := ClientError "connection refused" in
  mkBackend
    (fun _ => inl e) (fun _ => inl e) (fun _ _ => inl e) (fun _ _ _ => inl e)
    (fun _ _ => inl e) (fun _ _ _ => inl e) (fun _ => inl e)
    (fun _ _ _ _ _ _ => inl e) (fun _ _ _ _ => inl e) (fun _ _ => inl e)
    (fun _ _ => inl e) (fun _ _ _ _ _ => inl e) (fun _ _ _ => inl e).

(** A store whose reads and deletes fail while the collection handle is
    still handed out. *)
Definition be_read_fails : Backend :=
  let e := ClientError "backend unavailable" in
  mkBackend
    (be_XataClient be_ok) (be_users_get be_ok) (be_table_create be_ok)
    (be_table_set_schema be_ok) (be_table_delete be_ok) (be_put_records be_ok)
    (be_flush_queue be_ok) (be_insert_with_id be_ok) (be_insert be_ok)
    (be_get_collection be_ok)
    (fun _ _ => inl e) (fun _ _ _ _ _ => inl e) (fun _ _ _ => inl e).

(** A store that already holds the record ids [existing]: a create-only
    insert under one of them is answered with a failure status. *)
Definition be_holding (existing : list string) : Backend :=
  mkBackend
    (be_XataClient be_ok) (be_users_get be_ok) (be_table_create be_ok)
    (be_table_set_schema be_ok) (be_table_delete be_ok) (be_put_records be_ok)
    (be_flush_queue be_ok)
    (fun _ _ id _ create_only _ =>
       match id with
       | VStr i =>
           if create_only && str_in i existing
           then inr (mkApiResponse false (Some ("record with id " ++ i ++ " already exists")))
           else inr (mkApiResponse true None)
       | _ => inr (mkApiResponse true None)
       end)
    (be_insert be_ok) (be_get_collection be_ok)
    (be_query be_ok) (be_get be_ok) (be_delete be_ok).

(** The handler after [__init__] against a store that answers. *)
Definition sample_handler : XataHandler := snd (init be_ok sample_connection_data).

(** The same handler after a health check that failed: the flag is down,
    the client object is still there. *)
Definition sample_handler_after_failed_check : XataHandler :=
  cc_state (check_connection be_down sample_handler).

Definition search_condition : FilterCondition :=
  mkFilterCondition TableField.SEARCH_VECTOR EQUAL (VList [VFloat "0.1"; VFloat "0.2"]).

Definition id_condition : FilterCondition :=
  mkFilterCondition TableField.ID EQUAL (VStr "a").

Definition metadata_condition : FilterCondition :=
  mkFilterCondition "metadata.k" EQUAL (VInt 1).

(** The double-quote character, for JSON text. *)
Definition dq : string :=
  String (Ascii.Ascii false true false false false true false false) EmptyString.

(** The JSON text of an object with the key [k] bound to 1. *)
Definition json_k1 : string := "{" ++ dq ++ "k" ++ dq ++ ":1}".

Definition empty_frame : DataFrame :=
  mkDataFrame [ ("content", []); ("metadata", []) ].

Definition one_row_frame : DataFrame :=
  mkDataFrame [ ("content", [VStr "a"]); ("metadata", [VStr json_k1]) ].

Definition id_row_frame : DataFrame :=
  mkDataFrame [ ("id", [VStr "a"]); ("content", [VStr "x"]) ].

Definition three_row_frame : DataFrame :=
  mkDataFrame [ ("content", [VStr "a"; VStr "b"; VStr "c"]);
                ("metadata", [VStr json_k1; VStr json_k1; VStr json_k1]) ].

(** ** The remaining methods: get_columns and get_tables *)

(** The two calls below are not among [Call]; of each, the reply is what
    is kept.  A method here yields its response or the exception that
    leaves it. *)

Definition sum_bind {A B} (r : exn + A) (k : A -> exn + B) : exn + B :=
  match r with
  | inl e => inl e
  | inr a => k a
  end.

(** [v[k]] for a string key [k]: only a dictionary can be indexed so.
    The messages are those of CPython 3.10. *)
Definition py_subscript (v : pyval) (k : string) : exn + pyval :=
  match v with
  | VDict d => dict_item d k
  | VList _ => inl (TypeError "list indices must be integers or slices, not str")
  | VStr _ => inl (TypeError "string indices must be integers")
  | VNone => inl (TypeError "'NoneType' object is not subscriptable")
  | VBool _ => inl (TypeError "'bool' object is not subscriptable")
  | VInt _ => inl (TypeError "'int' object is not subscriptable")
  | VFloat _ => inl (TypeError "'float' object is not subscriptable")
  end.

(** [for x in v]: a list gives its items, a dictionary its keys, a string
    its characters; nothing else can be iterated. *)
Definition py_iter (v : pyval) : exn + list pyval :=
  match v with
  | VList items => inr items
  | VDict d => inr (map (fun kv => VStr (fst kv)) d)
  | VStr s => inr (map (fun a => VStr (String a EmptyString)) (list_ascii_of_string s))
  | VNone => inl (TypeError "'NoneType' object is not iterable")
  | VBool _ => inl (TypeError "'bool' object is not iterable")
  | VInt _ => inl (TypeError "'int' object is not iterable")
  | VFloat _ => inl (TypeError "'float' object is not iterable")
  end.

(** A list comprehension whose element expression may raise: the items
    are evaluated in order and the first exception ends it. *)
Fixpoint map_sum {A B} (f : A -> exn + B) (l : list A) : exn + list B :=
  match l with
  | [] => inr []
  | x :: rest =>
      sum_bind (f x) (fun y => sum_bind (map_sum f rest) (fun ys => inr (y :: ys)))
  end.

Section Metadata.

(** The reply of [self._client.table().get_columns(table_name)]. *)
Variable be_get_columns : Client -> string -> exn + ApiResponse.

(** The reply of [self._client.branch().get_details()]: the body of the
    response, a dictionary. *)
Variable be_get_details : Client -> exn + dict pyval.

(** [super().get_columns], inherited and not part of the sources at hand. *)
Variable super_get_columns : string -> outcome Response.

(** [pd.DataFrame(columns=..., data=...)] for a list of rows, a
    constructor of the pandas library. *)
Variable pd_DataFrame_rows : list string -> list pyval -> exn + DataFrame.

Definition client_of (self : XataHandler) (attr : string) : exn + Client :=
  match _client self with
  | Some c => inr c
  | None => inl (AttributeError
                   ("'NoneType' object has no attribute '" ++ attr ++ "'"))
  end.

(** [get_columns], lines 120-133. *)
Definition get_columns (self : XataHandler) (table_name : string) : outcome Response :=
  match
    sum_bind (client_of self "table") (fun c =>
    sum_bind (be_get_columns c table_name) (fun resp =>
    if negb (is_success resp)
    then sum_bind (resp_message resp) (fun m =>
           inl (PyException ("Error getting columns: " ++ m)))
    else inr tt))
  with
  | inl e => Returned (Response_ERROR (str_exn e))
  | inr _ => super_get_columns table_name
  end.

(** The names that line 140 collects. *)
Definition table_names (details : dict pyval) : exn + list pyval :=
  sum_bind (dict_item details "schema") (fun schema =>
  sum_bind (py_subscript schema "tables") (fun tables =>
  sum_bind (py_iter tables) (fun items =>
  map_sum (fun table_data => py_subscript table_data "name") items))).

(** [get_tables], lines 135-150. *)
Definition get_tables (self : XataHandler) : outcome Response :=
  match
    sum_bind (client_of self "branch") (fun c =>
    sum_bind (be_get_details c) (fun details =>
    sum_bind (table_names details) (fun names =>
    pd_DataFrame_rows ["TABLE_NAME"] names)))
  with
  | inr table_names_df => Returned (Response_TABLE table_names_df)
  | inl e => Returned (Response_ERROR
                         ("Error getting list of tables: " ++ str_exn e))
  end.

End Metadata.

(** ** Vocabulary of the further statements *)

(** The handlers that [__init__] and the connection methods can produce,
    against any stores. *)
Inductive reachable : XataHandler -> Prop :=
| reach_init (be : Backend) (connection_data : dict pyval) :
    reachable (snd (init be connection_data))
| reach_connect (be : Backend) (self : XataHandler) :
    reachable self -> reachable (snd (connect be self))
| reach_disconnect (self : XataHandler) :
    reachable self -> reachable (disconnect self)
| reach_check_connection (be : Backend) (self : XataHandler) :
    reachable self -> reachable (cc_state (check_connection be self)).

Definition is_table_delete (c : Call) : bool :=
  match c with CTableDelete _ => true | _ => false end.

Definition is_set_schema (c : Call) : bool :=
  match c with CTableSetSchema _ _ => true | _ => false end.

Definition is_flush (c : Call) : bool :=
  match c with CFlushQueue => true | _ => false end.

(** The three columns of the schema for a vector of the given dimension. *)
Definition schema_columns (dimension : pyval) : list ColumnSpec :=
  [ mkColumnSpec "embeddings" "vector" (Some dimension);
    mkColumnSpec "content" "text" None;
    mkColumnSpec "metadata" "json" None ].

(** The same condition under another operator. *)
Definition with_op (o : FilterOperator) (c : FilterCondition) : FilterCondition :=
  mkFilterCondition (column c) o (value c).

(** A list without its repetitions, each string at its first place. *)
Fixpoint dedup (l : list string) : list string :=
  match l with
  | [] => []
  | x :: rest => x :: filter (fun y => negb (String.eqb x y)) (dedup rest)
  end.

Definition not_embeddings (c : string) : bool :=
  negb (String.eqb c TableField.EMBEDDINGS).

(** A data frame of one column from a list of rows. *)
Definition one_column_frame (columns : list string) (rows : list pyval)
  : exn + DataFrame :=
  match columns with
  | [name] => inr (mkDataFrame [(name, rows)])
  | _ => inl (ValueError "Shape of passed values does not match the columns")
  end.

Definition sample_details : dict pyval :=
  [ ("databaseName", VStr "docs");
    ("schema",
     VDict [ ("tables",
              VList [ VDict [("name", VStr "docs"); ("columns", VList [])];
                      VDict [("name", VStr "notes"); ("columns", VList [])] ]) ]) ].

Definition sample_error_body : dict pyval :=
  [ ("message", VStr "Invalid API key") ].

Definition super_columns_answer : Response :=
  Response_TABLE (mkDataFrame [("COLUMN_NAME", [VStr "id"; VStr "content"])]).

(** ** Laws of the computations *)

Unset Implicit Arguments.
Arguments String.append : simpl never.

(** Two descriptions of one reply agree; a reply cannot be both an
    exception and a value. *)
Ltac same_reply :=
  repeat match goal with
         | H : inl _ = inr _ |- _ => discriminate H
         | H : inr _ = inl _ |- _ => discriminate H
         | H : inl _ = inl _ |- _ => injection H as H; subst
         | H : inr _ = inr _ |- _ => injection H as H; subst
         | H : mkApiResponse _ _ = mkApiResponse _ _ |- _ => injection H as ? ?; subst
         | H : is_success (mkApiResponse _ _) = _ |- _ => simpl in H
         | H : false = true |- _ => discriminate H
         | H : true = false |- _ => discriminate H
         | H : None = Some _ |- _ => discriminate H
         | H : Some _ = None |- _ => discriminate H
         | H : Some _ = Some _ |- _ => injection H as H; subst
         end.

Lemma bind_returned_inv {A B} (m : M A) (k : A -> M B) (b : B) :
  result (bind m k) = Returned b ->
  exists a, result m = Returned a /\ result (k a) = Returned b /\
            trace (bind m k) = (trace m ++ trace (k a))%list.
Proof.
  destruct m as [tr [a | e]]; simpl; [| discriminate].
  destruct (k a) as [tr' r] eqn:Hk; simpl; intros ->.
  exists a. rewrite Hk. auto.
Qed.

Lemma bind_returned {A B} (m : M A) (k : A -> M B) (a : A) :
  result m = Returned a ->
  bind m k = ((trace m ++ trace (k a))%list, result (k a)).
Proof.
  destruct m as [tr [a' | e]]; simpl; [| discriminate].
  intros [= ->]. now destruct (k a).
Qed.

Lemma bind_raised {A B} (m : M A) (k : A -> M B) (e : exn) :
  result m = Raised e -> bind m k = (trace m, Raised e).
Proof.
  destruct m as [tr [a | e']]; simpl; [discriminate |].
  now intros [= ->].
Qed.

Lemma lift_inv {A} (r : exn + A) (a : A) :
  result (lift r) = Returned a -> r = inr a.
Proof. destruct r; simpl; congruence. Qed.

(** A [try] whose handler returns always returns. *)
Lemma try_except_returns {A} (body : M A) (h : exn -> A) :
  exists a, result (try_except body (fun e => ret (h e))) = Returned a.
Proof.
  destruct body as [tr [a | e]]; simpl; eauto.
Qed.

(** ** Connection management *)

Lemma disconnect_is_connected (self : XataHandler) :
  is_connected (disconnect self) = false.
Proof.
  unfold disconnect. destruct (is_connected self) eqn:E; simpl; auto.
Qed.

Lemma connect_idempotent (be : Backend) (self : XataHandler) :
  is_connected self = true -> connect be self = ([], self).
Proof. unfold connect. now intros ->. Qed.

(** The status reports exactly whether the probe came back. *)
Lemma check_connection_status (be : Backend) (self : XataHandler) :
  success (cc_status (check_connection be self)) = true <->
  result (probe be self) = Returned tt.
Proof.
  unfold check_connection, cc_status.
  destruct (probe be self) as [tr [[] | e]]; simpl; split; congruence.
Qed.

(** A health check that succeeds on a connected handler keeps it
    connected. *)
Lemma check_connection_keeps_connected (be : Backend) (self : XataHandler) :
  is_connected self = true ->
  success (cc_status (check_connection be self)) = true ->
  cc_state (check_connection be self) = self.
Proof.
  unfold check_connection, cc_status, cc_state.
  destruct (probe be self) as [tr [[] | e]]; simpl; intros Hc; [| discriminate].
  rewrite Hc. simpl. reflexivity.
Qed.

(** C9: whenever the probe of [check_connection] fails, the handler is
    disconnected afterwards, whatever its state was before; and whenever
    [check_connection] runs on a handler that was disconnected and the
    probe succeeds, the handler is disconnected again when the call
    returns. *)
Theorem check_connection_two_state_machine :
  forall (be : Backend) (self : XataHandler),
    (success (cc_status (check_connection be self)) = false ->
     is_connected (cc_state (check_connection be self)) = false) /\
    (is_connected self = false ->
     success (cc_status (check_connection be self)) = true ->
     is_connected (cc_state (check_connection be self)) = false).
Proof.
  intros be self. unfold check_connection, cc_status, cc_state.
  destruct (probe be self) as [tr [[] | e]]; simpl; split; intros.
  - discriminate.
  - destruct (is_connected self) eqn:E; simpl; [discriminate |].
    rewrite disconnect_is_connected. reflexivity.
  - destruct (is_connected self) eqn:E; simpl; auto.
  - discriminate.
Qed.

Lemma check_connection_two_state_machine_witness :
  (is_connected sample_handler = true /\
   success (cc_status (check_connection be_down sample_handler)) = false /\
   is_connected (cc_state (check_connection be_down sample_handler)) = false) /\
  (is_connected sample_handler_after_failed_check = false /\
   success (cc_status (check_connection be_ok sample_handler_after_failed_check)) = true /\
   is_connected (cc_state (check_connection be_ok sample_handler_after_failed_check)) = false).
Proof.
  split.
  - split; [reflexivity | split; [reflexivity |]].
    apply (proj1 (check_connection_two_state_machine be_down sample_handler)).
    reflexivity.
  - split; [reflexivity | split; [reflexivity |]].
    apply (proj2 (check_connection_two_state_machine
                    be_ok sample_handler_after_failed_check));
      reflexivity.
Defined.

(** ** Table provisioning *)

(** [__init__] takes the dimension from the key ["db_url"]; the key
    ["dimension"] of the connection data is never read. *)
Lemma init_dimension (be : Backend) (connection_data : dict pyval) :
  dict_get (_create_table_params (snd (init be connection_data))) "dimension" =
  Some (dict_get_default connection_data "db_url" (VInt 8)).
Proof.
  unfold init, connect. simpl.
  destruct (be_XataClient be _); reflexivity.
Qed.

(** The schema that [create_table] sends: three columns in a fixed order,
    the vector column with the stored dimension. *)
Lemma create_table_schema (be : Backend) (self : XataHandler) (table_name : string)
    (c : Client) (dimension : pyval) :
  _client self = Some c ->
  dict_get (_create_table_params self) "dimension" = Some dimension ->
  be_table_create be c table_name = inr tt ->
  trace (create_table be self table_name) =
  [ CTableCreate table_name;
    CTableSetSchema table_name
      [ mkColumnSpec "embeddings" "vector" (Some dimension);
        mkColumnSpec "content" "text" None;
        mkColumnSpec "metadata" "json" None ] ].
Proof.
  intros Hc Hd Hcreate. unfold create_table, client_attr.
  rewrite Hc, Hd. simpl. rewrite Hcreate. simpl.
  destruct (be_table_set_schema be c table_name _); reflexivity.
Qed.

(** [create_table] and [drop_table] turn every exception into an error
    response. *)
Lemma create_table_never_raises (be : Backend) (self : XataHandler) (table_name : string) :
  exists r, result (create_table be self table_name) = Returned r.
Proof. unfold create_table. apply try_except_returns. Qed.

Lemma drop_table_never_raises (be : Backend) (self : XataHandler) (table_name : string) :
  exists r, result (drop_table be self table_name) = Returned r.
Proof. unfold drop_table. apply try_except_returns. Qed.

(** C8, evaluated on the code: with the connection data
    [db_url], [api_key] and [dimension = 16], [create_table] sets a schema
    of three columns in the order vector, text, JSON, but the dimension
    of the vector column is the value stored under [db_url], neither the
    configured 16 nor the default 8. *)
Theorem create_table_dimension_is_db_url :
  create_table be_ok (snd (init be_ok sample_connection_data)) "docs" =
  ( [ CTableCreate "docs";
      CTableSetSchema "docs"
        [ mkColumnSpec "embeddings" "vector"
            (Some (VStr "https://ws.us-east-1.xata.sh/db/docs"));
          mkColumnSpec "content" "text" None;
          mkColumnSpec "metadata" "json" None ] ],
    Returned Response_OK ).
Proof. reflexivity. Qed.

(** ** insert *)

(** Lines 155-157: after [data = data.to_dict("records")] the test
    ["metadata" in data.columns] asks a list for [columns], so every call
    of [insert] ends there, before any client call. *)
Lemma insert_always_raises (be : Backend) (self : XataHandler) (table_name : string)
    (data : DataFrame) (columns : option (list string)) :
  insert be self table_name data columns =
  ([], Raised (AttributeError "'list' object has no attribute 'columns'")).
Proof. reflexivity. Qed.

(** The write paths of lines 159-208, path by path. *)
Lemma insert_dispatch_empty (be : Backend) (self : XataHandler) (table_name : string)
    (columns : option (list string)) :
  insert_dispatch be self table_name [] columns = ([], Returned Response_OK).
Proof. reflexivity. Qed.

Lemma insert_dispatch_bulk (be : Backend) (self : XataHandler) (table_name : string)
    (r1 r2 : record) (rest : list record) (columns : option (list string)) (c : Client) :
  _client self = Some c ->
  be_put_records be c table_name (r1 :: r2 :: rest) = inr tt ->
  trace (insert_dispatch be self table_name (r1 :: r2 :: rest) columns) =
  [CPutRecords table_name (r1 :: r2 :: rest); CFlushQueue].
Proof.
  intros Hc Hput. unfold insert_dispatch, client_attr. simpl.
  rewrite Hc. simpl. rewrite Hput. simpl.
  destruct (be_flush_queue be c); reflexivity.
Qed.

Lemma insert_dispatch_without_id (be : Backend) (self : XataHandler)
    (table_name : string) (row : record) (columns : option (list string)) (c : Client) :
  _client self = Some c ->
  dict_mem row "id" = false ->
  trace (insert_dispatch be self table_name [row] columns) =
  [CInsert table_name row columns].
Proof.
  intros Hc Hid. unfold insert_dispatch, client_attr. simpl.
  rewrite Hid, Hc. simpl.
  destruct (be_insert be c table_name row columns) as [e | resp]; simpl; [reflexivity |].
  destruct (is_success resp); simpl; [reflexivity |].
  destruct (resp_message resp); reflexivity.
Qed.

Lemma insert_dispatch_id_not_declared (be : Backend) (self : XataHandler)
    (table_name : string) (row : record) (cols : list string) (c : Client) :
  _client self = Some c ->
  str_in TableField.ID cols = false ->
  trace (insert_dispatch be self table_name [row] (Some cols)) =
  [CInsert table_name row (Some cols)].
Proof.
  intros Hc Hdecl. unfold insert_dispatch, client_attr, in_columns.
  cbn [length Nat.ltb Nat.leb Nat.eqb index0 lift bind ret].
  rewrite Hdecl.
  replace (if dict_mem row "id" then ret false else ret false)
    with (@ret bool false) by (now destruct (dict_mem row "id")).
  rewrite Hc. simpl.
  destruct (be_insert be c table_name row (Some cols)) as [e | resp]; simpl; [reflexivity |].
  destruct (is_success resp); simpl; [reflexivity |].
  destruct (resp_message resp); reflexivity.
Qed.

(** A single row with an id and no column list: the test
    [TableField.ID.value in columns] of line 173 fails on [None]. *)
Lemma insert_dispatch_id_no_columns (be : Backend) (self : XataHandler)
    (table_name : string) (row : record) :
  dict_mem row "id" = true ->
  insert_dispatch be self table_name [row] None =
  ([], Raised (TypeError "argument of type 'NoneType' is not iterable")).
Proof.
  intros Hid. unfold insert_dispatch. simpl. rewrite Hid. reflexivity.
Qed.

(** C2, evaluated on the code: an [insert] of a batch of zero rows does
    not return success; it raises [AttributeError] at line 157, as does
    every other call of [insert], so no write path is ever selected. *)
Theorem insert_zero_rows_raises :
  to_dict_records empty_frame = [] /\
  insert be_ok sample_handler "docs" empty_frame (Some ["content"; "metadata"]) =
  ([], Raised (AttributeError "'list' object has no attribute 'columns'")).
Proof. split; reflexivity. Qed.

(** C3, evaluated on the code: an [insert] of one row that carries its
    metadata as JSON text raises [AttributeError] at line 157; the
    metadata is not deserialized and nothing is sent to the store. *)
Theorem insert_metadata_row_raises :
  to_dict_records one_row_frame =
    [ [("content", VStr "a"); ("metadata", VStr json_k1)] ] /\
  insert be_ok sample_handler "docs" one_row_frame (Some ["content"; "metadata"]) =
  ([], Raised (AttributeError "'list' object has no attribute 'columns'")).
Proof. split; reflexivity. Qed.

(** The path of lines 173-192, taken by itself (a single row that has an
    id, with [id] among the declared columns): the one client call is
    [insert_with_id] with [create_only=True], the id taken out of the
    payload.  A reply with a failure status and an exception of the client
    end the same way: in an error response that names the table and
    carries the message.  A store that answers a create-only insert under
    an existing id with a failure status therefore yields that error
    response. *)
Lemma insert_dispatch_with_id :
  forall (be : Backend) (self : XataHandler) (table_name : string)
         (row : record) (cols : list string) (c : Client) (id : pyval),
    _client self = Some c ->
    dict_get row "id" = Some id ->
    str_in TableField.ID cols = true ->
    let reply :=
      be_insert_with_id be c table_name id (dict_del row "id") true (Some cols) in
    let run := insert_dispatch be self table_name [row] (Some cols) in
    trace run =
      [CInsertWithId table_name id (dict_del row "id") true (Some cols)] /\
    (forall e, reply = inl e ->
       result run = Returned (Response_ERROR
         ("Error inserting data into '" ++ table_name ++ "': " ++ str_exn e))) /\
    (forall m, reply = inr (mkApiResponse false (Some m)) ->
       result run = Returned (Response_ERROR
         ("Error inserting data into '" ++ table_name ++ "': " ++ m))) /\
    (forall resp, reply = inr resp -> is_success resp = true ->
       result run = Returned Response_OK).
Proof.
  intros be self table_name row cols c id Hc Hid Hdecl reply run.
  subst reply run. unfold insert_dispatch, client_attr, dict_mem, dict_item.
  simpl. rewrite Hid. simpl. rewrite Hdecl. simpl. rewrite Hc. simpl.
  destruct (be_insert_with_id be c table_name id (dict_del row "id") true (Some cols))
    as [e | resp] eqn:Hreply; simpl.
  - repeat split; intros; same_reply; reflexivity.
  - destruct resp as [[] [m |]]; simpl;
      repeat split; intros; same_reply; reflexivity.
Qed.

Example insert_dispatch_with_id_on_existing_id :
  trace (insert_dispatch (be_holding ["a"]) sample_handler "docs"
           [[("id", VStr "a"); ("content", VStr "x")]] (Some ["id"; "content"])) =
    [CInsertWithId "docs" (VStr "a") [("content", VStr "x")] true
                   (Some ["id"; "content"])] /\
  result (insert_dispatch (be_holding ["a"]) sample_handler "docs"
            [[("id", VStr "a"); ("content", VStr "x")]] (Some ["id"; "content"])) =
    Returned (Response_ERROR
      "Error inserting data into 'docs': record with id a already exists").
Proof.
  pose proof (insert_dispatch_with_id
                (be_holding ["a"]) sample_handler "docs"
                [("id", VStr "a"); ("content", VStr "x")] ["id"; "content"]
                (mkClient (_client_config sample_handler)) (VStr "a")
                eq_refl eq_refl eq_refl) as H.
  simpl in H. destruct H as [Htr [_ [Hfail _]]].
  split.
  - exact Htr.
  - exact (Hfail "record with id a already exists" eq_refl).
Qed.

(** C6, evaluated on the code: a single row with an id that the store
    already holds, [id] among the declared columns.  [insert] raises
    [AttributeError] at line 157 and never comes to line 179: no
    create-only insert is issued and no error response naming the table is
    returned. *)
Theorem insert_with_existing_id_raises :
  to_dict_records id_row_frame = [ [("id", VStr "a"); ("content", VStr "x")] ] /\
  insert (be_holding ["a"]) sample_handler "docs" id_row_frame
         (Some ["id"; "content"]) =
  ([], Raised (AttributeError "'list' object has no attribute 'columns'")).
Proof. split; reflexivity. Qed.

(** ** Dictionaries *)

Lemma dict_get_set_same {V} (d : dict V) (k : string) (v : V) :
  dict_get (dict_set d k v) k = Some v.
Proof.
  induction d as [| [k' v'] d IH]; simpl.
  - now rewrite String.eqb_refl.
  - destruct (String.eqb k' k) eqn:E; simpl; rewrite E; auto.
Qed.

Lemma dict_get_set_other {V} (d : dict V) (k k' : string) (v : V) :
  k <> k' -> dict_get (dict_set d k v) k' = dict_get d k'.
Proof.
  intros Hne. induction d as [| [k0 v0] d IH]; simpl.
  - destruct (String.eqb k k') eqn:E; [| reflexivity].
    apply String.eqb_eq in E. contradiction.
  - destruct (String.eqb k0 k) eqn:E; simpl.
    + apply String.eqb_eq in E. subst k0.
      destruct (String.eqb k k') eqn:E'; [| reflexivity].
      apply String.eqb_eq in E'. contradiction.
    + now rewrite IH.
Qed.

Lemma dict_keys_get {V} (d : dict V) (k : string) :
  In k (dict_keys d) <-> dict_get d k <> None.
Proof.
  unfold dict_keys. induction d as [| [k' v'] d IH]; simpl.
  - split; [tauto | congruence].
  - destruct (String.eqb k' k) eqn:E.
    + apply String.eqb_eq in E. split; [congruence | auto].
    + apply String.eqb_neq in E. rewrite <- IH. split; [| auto].
      intros [H | H]; [contradiction | exact H].
Qed.

Lemma dict_keys_set {V} (d : dict V) (k k' : string) (v : V) :
  In k' (dict_keys (dict_set d k v)) <-> k' = k \/ In k' (dict_keys d).
Proof.
  rewrite !dict_keys_get.
  destruct (String.eqb k k') eqn:E.
  - apply String.eqb_eq in E. subst k'. rewrite dict_get_set_same.
    split; [auto | congruence].
  - apply String.eqb_neq in E. rewrite dict_get_set_other by exact E.
    split; [auto |]. intros [H | H]; [congruence | exact H].
Qed.

(** ** The projection of select *)

Lemma projectableb_spec (c : string) : projectableb c = true <-> projectable c.
Proof.
  unfold projectableb, projectable.
  rewrite !Bool.orb_true_iff, !String.eqb_eq. tauto.
Qed.

Lemma uniform_payload_get (ids documents metadatas : list pyval) (c : string) :
  dict_get (uniform_payload ids documents metadatas) c <> None <->
  c = TableField.ID \/ c = TableField.CONTENT \/ c = TableField.METADATA.
Proof.
  unfold uniform_payload. cbn [dict_get].
  destruct (String.eqb TableField.ID c) eqn:E1;
    [apply String.eqb_eq in E1; split; [auto | congruence] |].
  destruct (String.eqb TableField.CONTENT c) eqn:E2;
    [apply String.eqb_eq in E2; split; [auto | congruence] |].
  destruct (String.eqb TableField.METADATA c) eqn:E3;
    [apply String.eqb_eq in E3; split; [auto | congruence] |].
  apply String.eqb_neq in E1, E2, E3.
  split; [congruence |]. intros [H | [H | H]]; congruence.
Qed.

(** The comprehension succeeds exactly when every listed column is
    [embeddings] or a key of the payload. *)
Lemma project_from_ok (cols : list string) (payload acc : dict (list pyval)) :
  (exists d, project_from cols payload acc = inr d) <->
  Forall (fun c => c = TableField.EMBEDDINGS \/ dict_get payload c <> None) cols.
Proof.
  revert acc. induction cols as [| c cols IH]; intros acc; simpl.
  - split; eauto.
  - destruct (String.eqb c TableField.EMBEDDINGS) eqn:E.
    + apply String.eqb_eq in E. rewrite IH. split.
      * intros H. constructor; auto.
      * intros H. now inversion H.
    + apply String.eqb_neq in E.
      destruct (dict_get payload c) as [v |] eqn:G.
      * rewrite IH. split.
        -- intros H. constructor; [right; congruence | exact H].
        -- intros H. now inversion H.
      * split.
        -- intros [d Hd]. discriminate.
        -- intros H. inversion H as [| ? ? [Hc | Hc] ?]; subst; contradiction.
Qed.

(** When it fails, it fails with a [KeyError] for a listed column that is
    neither [embeddings] nor a key of the payload. *)
Lemma project_from_error (cols : list string) (payload acc : dict (list pyval)) (e : exn) :
  project_from cols payload acc = inl e ->
  exists k, e = KeyError k /\ In k cols /\
            k <> TableField.EMBEDDINGS /\ dict_get payload k = None.
Proof.
  revert acc. induction cols as [| c cols IH]; intros acc; simpl; [discriminate |].
  destruct (String.eqb c TableField.EMBEDDINGS) eqn:E.
  - intros H. destruct (IH _ H) as [k [? [? [? ?]]]]. exists k. auto.
  - apply String.eqb_neq in E.
    destruct (dict_get payload c) as [v |] eqn:G.
    + intros H. destruct (IH _ H) as [k [? [? [? ?]]]]. exists k. auto.
    + intros [= <-]. exists c. auto.
Qed.

(** The keys of the projected dictionary: those already there and the
    listed columns other than [embeddings]. *)
Lemma project_from_keys (cols : list string) (payload acc d : dict (list pyval)) :
  project_from cols payload acc = inr d ->
  forall k, In k (dict_keys d) <->
            In k (dict_keys acc) \/ (In k cols /\ k <> TableField.EMBEDDINGS).
Proof.
  revert acc. induction cols as [| c cols IH]; intros acc; simpl.
  - intros [= <-] k. tauto.
  - destruct (String.eqb c TableField.EMBEDDINGS) eqn:E.
    + apply String.eqb_eq in E. intros H k. rewrite (IH _ H k).
      split; [intros [? | [? ?]]; auto |].
      intros [? | [[? | ?] ?]]; auto. congruence.
    + apply String.eqb_neq in E.
      destruct (dict_get payload c) as [v |] eqn:G; [| discriminate].
      intros H k. rewrite (IH _ H k), dict_keys_set.
      split.
      * intros [[-> | ?] | [? ?]]; auto.
      * intros [? | [[<- | ?] ?]]; auto.
Qed.

(** Each projected column keeps the list it has in the payload. *)
Lemma project_from_values (cols : list string) (payload acc d : dict (list pyval)) :
  project_from cols payload acc = inr d ->
  (forall k v, dict_get acc k = Some v -> dict_get payload k = Some v) ->
  forall k v, dict_get d k = Some v -> dict_get payload k = Some v.
Proof.
  revert acc. induction cols as [| c cols IH]; intros acc; simpl.
  - intros [= <-] Hacc. exact Hacc.
  - destruct (String.eqb c TableField.EMBEDDINGS) eqn:E.
    + intros H Hacc. exact (IH _ H Hacc).
    + destruct (dict_get payload c) as [v |] eqn:G; [| discriminate].
      intros H Hacc. apply (IH _ H).
      intros k v' Hk.
      destruct (String.eqb c k) eqn:Eck.
      * apply String.eqb_eq in Eck. subst k.
        rewrite dict_get_set_same in Hk. congruence.
      * apply String.eqb_neq in Eck.
        rewrite dict_get_set_other in Hk by exact Eck. auto.
Qed.

Lemma project_ok_iff (cols : list string) (ids documents metadatas : list pyval) :
  (exists d, project cols (uniform_payload ids documents metadatas) = inr d) <->
  Forall projectable cols.
Proof.
  unfold project. rewrite project_from_ok.
  split; intros H; eapply Forall_impl; try exact H; intros c; cbv beta;
    rewrite uniform_payload_get; unfold projectable; tauto.
Qed.

(** ** select *)

Lemma is_search_vector_spec (c : FilterCondition) :
  is_search_vector c = true <-> column c = TableField.SEARCH_VECTOR.
Proof. unfold is_search_vector. apply String.eqb_eq. Qed.

(** Lines 228-240 find a vector filter exactly when some condition is on
    the search vector. *)
Lemma vector_filter_of_some (conditions : option (list FilterCondition)) :
  (exists vf, vector_filter_of conditions = Some vf) <->
  targets_search_vector conditions.
Proof.
  unfold vector_filter_of, targets_search_vector.
  destruct conditions as [cs |].
  - destruct (filter is_search_vector cs) as [| x l] eqn:F; simpl.
    + split; [intros [vf H]; discriminate |].
      intros [cs' [c [[= <-] [Hin Hc]]]].
      assert (Hf : In c (filter is_search_vector cs))
        by (apply filter_In; split; [exact Hin | now apply is_search_vector_spec]).
      rewrite F in Hf. contradiction.
    + split; [| eauto].
      intros _. exists cs, x.
      assert (Hf : In x (filter is_search_vector cs)) by (rewrite F; now left).
      apply filter_In in Hf. destruct Hf as [Hin Hx].
      apply is_search_vector_spec in Hx. auto.
  - simpl. split; [intros [vf H]; discriminate |].
    intros [cs [c [H _]]]. discriminate.
Qed.

Lemma vector_filter_of_none (conditions : option (list FilterCondition)) :
  vector_filter_of conditions = None <-> ~ targets_search_vector conditions.
Proof.
  rewrite <- vector_filter_of_some.
  destruct (vector_filter_of conditions) as [vf |].
  - split; [discriminate |]. intros H. exfalso. apply H. eauto.
  - split; [| reflexivity]. intros _ [vf H]. discriminate.
Qed.

(** [select] is its fetch followed by the pure construction of the
    frame: the calls are those of the fetch. *)
Lemma select_unfold (be : Backend) (tr : option (list FilterCondition) -> option FilterExpr)
    (self : XataHandler) (table_name : string) (columns : option (list string))
    (conditions : option (list FilterCondition)) (offset limit : option Z) :
  select be tr self table_name columns conditions offset limit =
  ( trace (select_fetch be tr self table_name conditions offset limit),
    match result (select_fetch be tr self table_name conditions offset limit) with
    | Raised e => Raised e
    | Returned fetched =>
        match select_frame columns fetched with
        | inl e => Raised e
        | inr df => Returned (Response_TABLE df)
        end
    end ).
Proof.
  unfold select.
  destruct (select_fetch be tr self table_name conditions offset limit)
    as [t0 [fetched | e]]; simpl; [| reflexivity].
  destruct (select_frame columns fetched); simpl; now rewrite app_nil_r.
Qed.

Lemma select_trace (be : Backend) (tr : option (list FilterCondition) -> option FilterExpr)
    (self : XataHandler) (table_name : string) (columns : option (list string))
    (conditions : option (list FilterCondition)) (offset limit : option Z) :
  trace (select be tr self table_name columns conditions offset limit) =
  trace (select_fetch be tr self table_name conditions offset limit).
Proof. now rewrite select_unfold. Qed.

Lemma select_result (be : Backend) (tr : option (list FilterCondition) -> option FilterExpr)
    (self : XataHandler) (table_name : string) (columns : option (list string))
    (conditions : option (list FilterCondition)) (offset limit : option Z) :
  result (select be tr self table_name columns conditions offset limit) =
  match result (select_fetch be tr self table_name conditions offset limit) with
  | Raised e => Raised e
  | Returned fetched =>
      match select_frame columns fetched with
      | inl e => Raised e
      | inr df => Returned (Response_TABLE df)
      end
  end.
Proof. now rewrite select_unfold. Qed.

(** The plain path of the fetch. *)
Lemma select_fetch_plain (be : Backend) (tr : option (list FilterCondition) -> option FilterExpr)
    (self : XataHandler) (table_name : string)
    (conditions : option (list FilterCondition)) (offset limit : option Z)
    (c : Client) (collection : Collection) :
  _client self = Some c ->
  be_get_collection be c table_name = inr collection ->
  vector_filter_of conditions = None ->
  select_fetch be tr self table_name conditions offset limit =
  ( [ CGetCollection table_name;
      CGet collection (id_filters_of conditions) (tr conditions) limit offset ],
    match be_get be collection (id_filters_of conditions) (tr conditions) limit offset with
    | inl e => Raised e
    | inr r => Returned (gr_ids r, gr_documents r, gr_metadatas r, None)
    end ).
Proof.
  intros Hc Hcol Hvf. unfold select_fetch, client_attr.
  rewrite Hc, Hvf. simpl. rewrite Hcol. simpl.
  destruct (be_get be collection _ _ limit offset); reflexivity.
Qed.

(** The similarity path of the fetch: one query, then the first batch of
    each of the four lists. *)
Lemma select_fetch_similarity (be : Backend)
    (tr : option (list FilterCondition) -> option FilterExpr)
    (self : XataHandler) (table_name : string)
    (conditions : option (list FilterCondition)) (offset limit : option Z)
    (c : Client) (collection : Collection) (vf : FilterCondition) :
  _client self = Some c ->
  be_get_collection be c table_name = inr collection ->
  vector_filter_of conditions = Some vf ->
  let query_payload :=
    mkQueryPayload (tr conditions) (value vf)
                   ["metadatas"; "documents"; "distances"] limit in
  trace (select_fetch be tr self table_name conditions offset limit) =
    [CGetCollection table_name; CQuery collection query_payload] /\
  result (select_fetch be tr self table_name conditions offset limit) =
    match be_query be collection query_payload with
    | inl e => Raised e
    | inr r =>
        match index0 (qr_ids r), index0 (qr_documents r),
              index0 (qr_metadatas r), index0 (qr_distances r) with
        | inr ids, inr documents, inr metadatas, inr distances =>
            Returned (ids, documents, metadatas, Some distances)
        | _, _, _, _ => Raised (IndexError "list index out of range")
        end
    end.
Proof.
  intros Hc Hcol Hvf. unfold select_fetch, client_attr.
  rewrite Hc, Hvf. simpl. rewrite Hcol. simpl.
  destruct (be_query be collection _) as [e | r]; simpl; [auto |].
  destruct (qr_ids r), (qr_documents r), (qr_metadatas r), (qr_distances r);
    simpl; auto.
Qed.

(** What a run of the fetch can look like.  Before the collection handle
    is there no query is made; afterwards exactly one is made, a
    similarity query or a plain retrieval, decided by the vector filter. *)
Lemma select_fetch_cases (be : Backend)
    (tr : option (list FilterCondition) -> option FilterExpr)
    (self : XataHandler) (table_name : string)
    (conditions : option (list FilterCondition)) (offset limit : option Z) :
  let run := select_fetch be tr self table_name conditions offset limit in
  ((trace run = [] \/ trace run = [CGetCollection table_name]) /\
   exists e, result run = Raised e) \/
  (exists collection payload,
     targets_search_vector conditions /\
     trace run = [CGetCollection table_name; CQuery collection payload] /\
     forall fetched, result run = Returned fetched -> exists d, snd fetched = Some d) \/
  (exists collection ids filters,
     ~ targets_search_vector conditions /\
     trace run = [CGetCollection table_name; CGet collection ids filters limit offset] /\
     forall fetched, result run = Returned fetched -> snd fetched = None).
Proof.
  intros run. subst run.
  destruct (_client self) as [c |] eqn:Hc.
  - destruct (be_get_collection be c table_name) as [e | collection] eqn:Hcol.
    + left. unfold select_fetch, client_attr. rewrite Hc. simpl. rewrite Hcol.
      simpl. split; [auto | eauto].
    + destruct (vector_filter_of conditions) as [vf |] eqn:Hvf.
      * right. left.
        destruct (select_fetch_similarity be tr self table_name conditions
                    offset limit c collection vf Hc Hcol Hvf) as [Htr Hres].
        eexists. eexists. split; [apply vector_filter_of_some; eauto |].
        split; [exact Htr |].
        intros fetched. rewrite Hres.
        destruct (be_query be collection _) as [e | r]; [discriminate |].
        destruct (index0 (qr_ids r)), (index0 (qr_documents r)),
                 (index0 (qr_metadatas r)), (index0 (qr_distances r));
          try discriminate.
        intros [= <-]. simpl. eauto.
      * right. right.
        rewrite (select_fetch_plain be tr self table_name conditions offset limit
                   c collection Hc Hcol Hvf).
        eexists. eexists. eexists.
        split; [now apply vector_filter_of_none |].
        split; [reflexivity |].
        intros fetched. simpl.
        destruct (be_get be collection _ _ limit offset); [discriminate |].
        now intros [= <-].
  - left. unfold select_fetch, client_attr. rewrite Hc. simpl.
    split; [auto | eauto].
Qed.

(** The frame of a returned [select]: the projected (or whole) uniform
    payload, with the distances set under [distance] when there are any. *)
Lemma select_frame_inv (columns : option (list string))
    (ids documents metadatas : list pyval) (distances : option (list pyval))
    (df : DataFrame) :
  select_frame columns (ids, documents, metadatas, distances) = inr df ->
  exists payload,
    match columns with
    | Some cols => project cols (uniform_payload ids documents metadatas) = inr payload
    | None => payload = uniform_payload ids documents metadatas
    end /\
    df_data df = match distances with
                 | Some d => dict_set payload TableField.DISTANCE d
                 | None => payload
                 end.
Proof.
  unfold select_frame, pd_DataFrame.
  destruct columns as [cols |].
  - destruct (project cols (uniform_payload ids documents metadatas))
      as [e | payload]; [discriminate |].
    destruct (same_length _); [| discriminate].
    intros [= <-]. exists payload. auto.
  - destruct (same_length _); [| discriminate].
    intros [= <-]. eexists. split; [reflexivity |]. reflexivity.
Qed.

(** Neither the uniform payload nor a projection of it has a [distance]
    key. *)
Lemma projected_payload_no_distance (columns : option (list string))
    (ids documents metadatas : list pyval) (payload : dict (list pyval)) :
  match columns with
  | Some cols => project cols (uniform_payload ids documents metadatas) = inr payload
  | None => payload = uniform_payload ids documents metadatas
  end ->
  dict_get payload TableField.DISTANCE = None.
Proof.
  assert (Hu : dict_get (uniform_payload ids documents metadatas) TableField.DISTANCE = None)
    by reflexivity.
  destruct columns as [cols |].
  - intros Hp. destruct (dict_get payload TableField.DISTANCE) as [v |] eqn:G;
      [| reflexivity].
    unfold project in Hp.
    pose proof (project_from_values cols _ [] payload Hp) as Hv.
    rewrite (Hv ltac:(intros k v' H; discriminate) _ _ G) in Hu. discriminate.
  - now intros ->.
Qed.

(** The columns of a returned frame: the listed columns other than
    [embeddings] (all three uniform columns when no list is given), and
    [distance] when distances were fetched. *)
Lemma select_frame_columns (columns : option (list string))
    (ids documents metadatas : list pyval) (distances : option (list pyval))
    (df : DataFrame) :
  select_frame columns (ids, documents, metadatas, distances) = inr df ->
  forall k,
    In k (df_columns df) <->
    match columns with
    | Some cols => In k cols /\ k <> TableField.EMBEDDINGS
    | None => k = TableField.ID \/ k = TableField.CONTENT \/ k = TableField.METADATA
    end \/ (k = TableField.DISTANCE /\ distances <> None).
Proof.
  intros Hf k. destruct (select_frame_inv _ _ _ _ _ _ Hf) as [payload [Hp Hd]].
  unfold df_columns. rewrite Hd.
  assert (Hk : In k (dict_keys payload) <->
               match columns with
               | Some cols => In k cols /\ k <> TableField.EMBEDDINGS
               | None => k = TableField.ID \/ k = TableField.CONTENT \/
                         k = TableField.METADATA
               end).
  { destruct columns as [cols |].
    - unfold project in Hp. rewrite (project_from_keys _ _ _ _ Hp k).
      simpl. tauto.
    - subst payload. unfold uniform_payload. simpl. intuition congruence. }
  destruct distances as [d |].
  - rewrite dict_keys_set, Hk. split.
    + intros [-> | H]; [right; split; [reflexivity | discriminate] | auto].
    + intros [H | [-> _]]; auto.
  - rewrite Hk. split; [auto |]. intros [H | [_ H]]; [exact H | congruence].
Qed.



(** C4, evaluated on the code: a similarity search whose projection list
    names [distance] does not return a table with the [distance] column;
    the lookup [payload["distance"]] of line 288 raises [KeyError], because
    the distances are put into the payload only at line 295. *)
Theorem select_projection_naming_distance_raises :
  select be_ok translate_metadata_condition sample_handler "docs"
         (Some ["id"; "distance"]) (Some [search_condition]) None (Some 5%Z) =
  ( [ CGetCollection "docs";
      CQuery (mkCollection "docs")
             (mkQueryPayload None (VList [VFloat "0.1"; VFloat "0.2"])
                             ["metadatas"; "documents"; "distances"] (Some 5%Z)) ],
    Raised (KeyError "distance") ).
Proof. reflexivity. Qed.

(** C10: with a projection list, the lookup of lines 287-291 succeeds
    exactly when every listed column is [embeddings], [id], [content] or
    [metadata], and [distance] is not one of these.  So a [select] that
    returns had only such columns listed; and when some other column is
    listed, [select] raises and returns no response at all: once the
    fetch has come back, the exception is the [KeyError] of a listed column
    outside those four. *)
Theorem select_projection_key_error :
  forall (be : Backend) (tr : option (list FilterCondition) -> option FilterExpr)
         (self : XataHandler) (table_name : string) (cols : list string)
         (conditions : option (list FilterCondition)) (offset limit : option Z),
    let run := select be tr self table_name (Some cols) conditions offset limit in
    (forall ids documents metadatas,
       (exists d, project cols (uniform_payload ids documents metadatas) = inr d) <->
       Forall projectable cols) /\
    ~ projectable TableField.DISTANCE /\
    (forall resp, result run = Returned resp -> Forall projectable cols) /\
    (~ Forall projectable cols ->
       (exists e, result run = Raised e) /\
       (forall fetched,
          result (select_fetch be tr self table_name conditions offset limit) =
            Returned fetched ->
          exists k, In k cols /\ ~ projectable k /\ result run = Raised (KeyError k))).
Proof.
  intros be tr self table_name cols conditions offset limit run. subst run.
  assert (Hraise : ~ Forall projectable cols ->
            forall ids documents metadatas distances,
            exists k, In k cols /\ ~ projectable k /\
                      select_frame (Some cols) (ids, documents, metadatas, distances) =
                        inl (KeyError k)).
  { intros Hnot ids documents metadatas distances. unfold select_frame.
    destruct (project cols (uniform_payload ids documents metadatas))
      as [e | d] eqn:Hp.
    - unfold project in Hp.
      destruct (project_from_error _ _ _ _ Hp) as [k [-> [Hin [Hne Hget]]]].
      exists k. split; [exact Hin |]. split; [| reflexivity].
      intros [H | H]; [contradiction |].
      apply (proj2 (uniform_payload_get ids documents metadatas k)) in H.
      contradiction.
    - exfalso. apply Hnot. apply (project_ok_iff cols ids documents metadatas). eauto. }
  split; [intros; apply project_ok_iff |].
  split; [unfold projectable; intros [H | [H | [H | H]]]; discriminate |].
  rewrite select_result.
  split.
  - intros resp.
    destruct (result (select_fetch be tr self table_name conditions offset limit))
      as [[[[ids documents] metadatas] distances] | e]; [| discriminate].
    destruct (select_frame (Some cols) (ids, documents, metadatas, distances))
      as [e | df] eqn:Hf; [discriminate |].
    intros _. destruct (select_frame_inv _ _ _ _ _ _ Hf) as [p [Hp _]].
    apply (project_ok_iff cols ids documents metadatas). eauto.
  - intros Hnot. split.
    + destruct (result (select_fetch be tr self table_name conditions offset limit))
        as [[[[ids documents] metadatas] distances] | e]; [| eauto].
      destruct (Hraise Hnot ids documents metadatas distances) as [k [_ [_ Hk]]].
      rewrite Hk. eauto.
    + intros [[[ids documents] metadatas] distances] ->.
      destruct (Hraise Hnot ids documents metadatas distances) as [k [Hin [Hnp Hk]]].
      exists k. rewrite Hk. auto.
Qed.

Lemma select_projection_key_error_witness :
  exists k,
    In k ["content"; "distance"] /\ ~ projectable k /\
    result (select be_ok translate_metadata_condition sample_handler "docs"
              (Some ["content"; "distance"]) (Some [search_condition]) None None) =
      Raised (KeyError k).
Proof.
  assert (Hnot : ~ Forall projectable ["content"; "distance"]).
  { intros H. inversion H as [| ? ? _ H']; subst.
    inversion H' as [| ? ? [E | [E | [E | E]]] _]; discriminate. }
  exact (proj2 (proj2 (proj2 (proj2
           (select_projection_key_error
              be_ok translate_metadata_condition sample_handler "docs"
              ["content"; "distance"] (Some [search_condition]) None None))) Hnot)
           _ eq_refl).
Defined.

(** [select] does return when the store answers: on the plain path with
    no projection list, the frame is the uniform payload. *)
Lemma select_plain_returns (be : Backend)
    (tr : option (list FilterCondition) -> option FilterExpr)
    (self : XataHandler) (table_name : string)
    (conditions : option (list FilterCondition)) (offset limit : option Z)
    (c : Client) (collection : Collection) (r : GetResult) :
  _client self = Some c ->
  be_get_collection be c table_name = inr collection ->
  vector_filter_of conditions = None ->
  be_get be collection (id_filters_of conditions) (tr conditions) limit offset = inr r ->
  length (gr_documents r) = length (gr_ids r) ->
  length (gr_metadatas r) = length (gr_ids r) ->
  result (select be tr self table_name None conditions offset limit) =
  Returned (Response_TABLE
              (mkDataFrame (uniform_payload (gr_ids r) (gr_documents r) (gr_metadatas r)))).
Proof.
  intros Hc Hcol Hvf Hget Hd Hm. rewrite select_result.
  rewrite (select_fetch_plain be tr self table_name conditions offset limit
             c collection Hc Hcol Hvf).
  unfold result. cbn [snd]. rewrite Hget.
  unfold select_frame, pd_DataFrame, same_length, uniform_payload.
  cbn [forallb snd]. rewrite Hd, Hm, Nat.eqb_refl. reflexivity.
Qed.

(** On the similarity path with no projection list, the frame is the
    uniform payload of the first batch followed by its distances. *)
Lemma select_similarity_returns (be : Backend)
    (tr : option (list FilterCondition) -> option FilterExpr)
    (self : XataHandler) (table_name : string)
    (conditions : option (list FilterCondition)) (offset limit : option Z)
    (c : Client) (collection : Collection) (vf : FilterCondition)
    (ids documents metadatas distances : list pyval)
    (more_ids more_documents more_metadatas more_distances : list (list pyval)) :
  _client self = Some c ->
  be_get_collection be c table_name = inr collection ->
  vector_filter_of conditions = Some vf ->
  be_query be collection
           (mkQueryPayload (tr conditions) (value vf)
                           ["metadatas"; "documents"; "distances"] limit) =
    inr (mkQueryResult (ids :: more_ids) (documents :: more_documents)
                       (metadatas :: more_metadatas) (distances :: more_distances)) ->
  length documents = length ids ->
  length metadatas = length ids ->
  length distances = length ids ->
  result (select be tr self table_name None conditions offset limit) =
  Returned (Response_TABLE
              (mkDataFrame
                 [ (TableField.ID, ids);
                   (TableField.CONTENT, documents);
                   (TableField.METADATA, metadatas);
                   (TableField.DISTANCE, distances) ])).
Proof.
  intros Hc Hcol Hvf Hq Hd Hm Hdist. rewrite select_result.
  destruct (select_fetch_similarity be tr self table_name conditions offset limit
              c collection vf Hc Hcol Hvf) as [_ Hres].
  rewrite Hres, Hq. cbn [index0 qr_ids qr_documents qr_metadatas qr_distances].
  unfold select_frame, pd_DataFrame, same_length, uniform_payload.
  replace (dict_set
             [(TableField.ID, ids); (TableField.CONTENT, documents);
              (TableField.METADATA, metadatas)] TableField.DISTANCE distances)
    with [ (TableField.ID, ids); (TableField.CONTENT, documents);
           (TableField.METADATA, metadatas); (TableField.DISTANCE, distances) ]
    by reflexivity.
  cbn [forallb snd]. rewrite Hd, Hm, Hdist, Nat.eqb_refl. reflexivity.
Qed.

(** The plain path hands a failure of the store to the caller as it is:
    [select] has no [try]. *)
Lemma select_propagates_get_failure (be : Backend)
    (tr : option (list FilterCondition) -> option FilterExpr)
    (self : XataHandler) (table_name : string) (columns : option (list string))
    (conditions : option (list FilterCondition)) (offset limit : option Z)
    (c : Client) (collection : Collection) (e : exn) :
  _client self = Some c ->
  be_get_collection be c table_name = inr collection ->
  vector_filter_of conditions = None ->
  be_get be collection (id_filters_of conditions) (tr conditions) limit offset = inl e ->
  result (select be tr self table_name columns conditions offset limit) = Raised e.
Proof.
  intros Hc Hcol Hvf Hget. rewrite select_result.
  rewrite (select_fetch_plain be tr self table_name conditions offset limit
             c collection Hc Hcol Hvf).
  unfold result. simpl. now rewrite Hget.
Qed.

(** ** delete *)

(** Without a condition list the comprehension of lines 313-317 raises:
    [delete] tests nothing for [None], unlike [select]. *)
Lemma delete_without_list (be : Backend)
    (tr : option (list FilterCondition) -> option FilterExpr)
    (self : XataHandler) (table_name : string) :
  delete be tr self table_name None =
  ([], Raised (TypeError "'NoneType' object is not iterable")).
Proof. reflexivity. Qed.

Lemma id_filters_of_list (cs : list FilterCondition) :
  id_filters_of (Some cs) = or_None (map value (filter is_id cs)).
Proof. reflexivity. Qed.

(** The translation modelled from the spec gives no expression for the
    empty list. *)
Lemma translate_metadata_condition_nil :
  translate_metadata_condition (Some []) = None.
Proof. reflexivity. Qed.

(** The two ways a [delete] with a condition list runs: the usage error
    before any call, or the collection handle and one delete call. *)
Lemma delete_requires_condition_core :
  forall (be : Backend) (tr : option (list FilterCondition) -> option FilterExpr)
         (self : XataHandler) (table_name : string) (cs : list FilterCondition),
    let run := delete be tr self table_name (Some cs) in
    (tr (Some cs) = None -> id_filters_of (Some cs) = None ->
     run = ([], Raised (PyException "Delete query must have at least one condition!"))) /\
    (tr (Some cs) <> None \/ id_filters_of (Some cs) <> None ->
     forall c collection,
       _client self = Some c ->
       be_get_collection be c table_name = inr collection ->
       trace run =
         [ CGetCollection table_name;
           CDelete collection (id_filters_of (Some cs)) (tr (Some cs)) ] /\
       length (filter is_delete (trace run)) = 1%nat /\
       (be_delete be collection (id_filters_of (Some cs)) (tr (Some cs)) = inr tt ->
        result run = Returned Response_OK /\ data_frame Response_OK = None) /\
       (forall e,
          be_delete be collection (id_filters_of (Some cs)) (tr (Some cs)) = inl e ->
          result run = Raised e)).
Proof.
  intros be tr self table_name cs run. subst run.
  rewrite id_filters_of_list. unfold delete.
  destruct (tr (Some cs)) as [f |] eqn:Ht;
    destruct (or_None (map value (filter is_id cs))) as [ids |] eqn:Hi;
    (split;
     [ intros H1 H2; try discriminate; reflexivity
     | intros Hsome c collection Hc Hcol ]);
    try (destruct Hsome; congruence);
    unfold client_attr; rewrite Hc; simpl; rewrite Hcol; simpl;
    match goal with
    | |- context [be_delete be ?col ?i ?w] =>
        destruct (be_delete be col i w) as [e | []]; simpl
    end;
    repeat split; intros; same_reply; reflexivity.
Qed.

(** A [delete] that is given a condition list.  When the list gives
    neither a metadata filter nor an id filter, the usage error is raised
    at once, with no call on the client.  When it gives at least one of
    the two, on a handler that has its client and gets the collection
    handle, [delete] makes exactly one delete call, which carries the id
    filters and the metadata filters; when that call succeeds, the result
    is the success response without a data frame; when it fails, its
    exception leaves [delete]. *)
Theorem delete_requires_condition :
  forall (be : Backend) (tr : option (list FilterCondition) -> option FilterExpr)
         (self : XataHandler) (table_name : string) (cs : list FilterCondition),
    let run := delete be tr self table_name (Some cs) in
    (tr (Some cs) = None -> id_filters_of (Some cs) = None ->
     run = ([], Raised (PyException "Delete query must have at least one condition!"))) /\
    (tr (Some cs) <> None \/ id_filters_of (Some cs) <> None ->
     forall c collection,
       _client self = Some c ->
       be_get_collection be c table_name = inr collection ->
       trace run =
         [ CGetCollection table_name;
           CDelete collection (id_filters_of (Some cs)) (tr (Some cs)) ] /\
       length (filter is_delete (trace run)) = 1%nat /\
       (be_delete be collection (id_filters_of (Some cs)) (tr (Some cs)) = inr tt ->
        result run = Returned Response_OK /\ data_frame Response_OK = None) /\
       (forall e,
          be_delete be collection (id_filters_of (Some cs)) (tr (Some cs)) = inl e ->
          result run = Raised e)).
Proof. exact delete_requires_condition_core. Qed.

Lemma delete_requires_condition_witness :
  delete be_ok translate_metadata_condition sample_handler "docs" (Some []) =
    ([], Raised (PyException "Delete query must have at least one condition!")) /\
  trace (delete be_ok translate_metadata_condition sample_handler "docs"
           (Some [metadata_condition; id_condition])) =
    [ CGetCollection "docs";
      CDelete (mkCollection "docs") (Some [VStr "a"])
              (Some (FAnd [("metadata.k", EQUAL, VInt 1)])) ] /\
  result (delete be_ok translate_metadata_condition sample_handler "docs"
            (Some [metadata_condition; id_condition])) =
    Returned Response_OK.
Proof.
  split.
  - pose proof (delete_requires_condition
                  be_ok translate_metadata_condition sample_handler "docs" []) as H.
    cbv zeta in H. destruct H as [H1 _].
    exact (H1 eq_refl eq_refl).
  - pose proof (delete_requires_condition
                  be_ok translate_metadata_condition sample_handler "docs"
                  [metadata_condition; id_condition]) as H.
    cbv zeta in H. destruct H as [_ H2].
    assert (Hsome :
      translate_metadata_condition (Some [metadata_condition; id_condition]) <> None \/
      id_filters_of (Some [metadata_condition; id_condition]) <> None)
      by (left; discriminate).
    specialize (H2 Hsome (mkClient (_client_config sample_handler))
                   (mkCollection "docs") eq_refl eq_refl).
    destruct H2 as [Htr [_ [Hok _]]].
    split; [exact Htr | exact (proj1 (Hok eq_refl))].
Defined.

(** The id filter is absent exactly when no condition is on [id]. *)
Lemma id_filters_of_none_iff (cs : list FilterCondition) :
  id_filters_of (Some cs) = None <->
  forall c, In c cs -> column c <> TableField.ID.
Proof.
  rewrite id_filters_of_list. split.
  - intros Hnone c Hin Hcol.
    assert (Hf : In c (filter is_id cs))
      by (apply filter_In; split; [exact Hin | now apply String.eqb_eq]).
    destruct (filter is_id cs); [contradiction | discriminate].
  - intros Hall. destruct (filter is_id cs) as [| c l] eqn:F; [reflexivity |].
    assert (Hf : In c (filter is_id cs)) by (rewrite F; now left).
    apply filter_In in Hf. destruct Hf as [Hin Hc].
    apply String.eqb_eq in Hc. exfalso. exact (Hall c Hin Hc).
Qed.

(** C5, evaluated on the code: a [delete] called without conditions, the
    declared default [conditions=None], does not raise the usage error.
    The comprehension of lines 313-317 iterates over [None] and raises
    [TypeError] at line 315; the test of line 319 and its
    [Exception("Delete query must have at least one condition!")] are
    never reached.  No call is made on the store.  With the empty list the
    usage error is raised. *)
Theorem delete_without_conditions_raises_type_error :
  delete be_ok translate_metadata_condition sample_handler "docs" None =
    ([], Raised (TypeError "'NoneType' object is not iterable")) /\
  delete be_ok translate_metadata_condition sample_handler "docs" (Some []) =
    ([], Raised (PyException "Delete query must have at least one condition!")).
Proof. split; reflexivity. Qed.

(** ** Failures of the store *)

(** [delete] has no [try] either: a failure of the delete call leaves it
    as the exception that the client raised. *)
Lemma delete_propagates_failure (be : Backend)
    (tr : option (list FilterCondition) -> option FilterExpr)
    (self : XataHandler) (table_name : string) (cs : list FilterCondition)
    (c : Client) (collection : Collection) (e : exn) :
  tr (Some cs) <> None \/ id_filters_of (Some cs) <> None ->
  _client self = Some c ->
  be_get_collection be c table_name = inr collection ->
  be_delete be collection (id_filters_of (Some cs)) (tr (Some cs)) = inl e ->
  result (delete be tr self table_name (Some cs)) = Raised e.
Proof.
  intros Hsome Hc Hcol He.
  destruct (proj2 (delete_requires_condition_core be tr self table_name cs)
              Hsome c collection Hc Hcol) as [_ [_ [_ H]]].
  exact (H e He).
Qed.

(** C7, evaluated on the code: when the store fails during the retrieval
    of a [select], or during the delete call of a [delete] that has a
    condition, the exception of the client leaves the method as it is; no
    error response is built.  [drop_table], like the other methods with a
    [try], answers the same kind of failure with an error response that
    names the table. *)
Theorem select_and_delete_propagate_backend_failure :
  select be_read_fails translate_metadata_condition sample_handler "docs"
         None (Some [id_condition]) None None =
    ( [ CGetCollection "docs";
        CGet (mkCollection "docs") (Some [VStr "a"]) None None None ],
      Raised (ClientError "backend unavailable") ) /\
  delete be_read_fails translate_metadata_condition sample_handler "docs"
         (Some [id_condition]) =
    ( [ CGetCollection "docs";
        CDelete (mkCollection "docs") (Some [VStr "a"]) None ],
      Raised (ClientError "backend unavailable") ) /\
  drop_table be_down sample_handler "docs" =
    ( [ CTableDelete "docs" ],
      Returned (Response_ERROR "Error deleting table 'docs': connection refused") ).
Proof. repeat split; reflexivity. Qed.

(** * Further properties of the handler *)

(** ** The life cycle of the connection *)

(** X1: [__init__] called without the [connection_data] keyword raises
    [AttributeError] at line 32, before any call on the store.  Called
    with connection data it returns a handler and makes exactly one
    attempt to build the client, from the [db_url] and [api_key] of the
    data, whether or not the constructor raises: the handler is connected
    and holds the new client when the constructor returned, and is
    disconnected and holds none when it raised. *)
Theorem init_one_connection_attempt :
  forall (be : Backend),
    init_kwargs be None =
      ([], Raised (AttributeError "'NoneType' object has no attribute 'get'")) /\
    forall (connection_data : dict pyval),
      let cfg := mkClientConfig (dict_get connection_data "db_url")
                                (dict_get connection_data "api_key") in
      exists self,
        init_kwargs be (Some connection_data) = ([CXataClient cfg], Returned self) /\
        _connection_data self = connection_data /\
        _client_config self = cfg /\
        match be_XataClient be cfg with
        | inr c => is_connected self = true /\ _client self = Some c
        | inl _ => is_connected self = false /\ _client self = None
        end.
Proof.
  intros be. split; [reflexivity |].
  intros connection_data cfg. subst cfg.
  exists (snd (init be connection_data)).
  unfold init_kwargs, init, connect. simpl.
  destruct (be_XataClient be _); simpl; auto.
Qed.

Lemma connect_frame (be : Backend) (self : XataHandler) :
  _connection_data (snd (connect be self)) = _connection_data self /\
  _client_config (snd (connect be self)) = _client_config self /\
  _create_table_params (snd (connect be self)) = _create_table_params self.
Proof.
  unfold connect. destruct (is_connected self); simpl; auto.
  destruct (be_XataClient be _); simpl; auto.
Qed.

Lemma disconnect_frame (self : XataHandler) :
  _connection_data (disconnect self) = _connection_data self /\
  _client_config (disconnect self) = _client_config self /\
  _create_table_params (disconnect self) = _create_table_params self.
Proof.
  unfold disconnect. destruct (is_connected self); simpl; auto.
Qed.

(** A [disconnect] on a handler whose flag is down changes nothing. *)
Lemma disconnect_when_down (self : XataHandler) :
  is_connected self = false -> disconnect self = self.
Proof. unfold disconnect. now intros ->. Qed.

(** What [check_connection] does to the handler: at most the flag goes
    down. *)
Lemma check_connection_state (be : Backend) (self : XataHandler) :
  cc_state (check_connection be self) =
  set_is_connected self
    (is_connected self && success (cc_status (check_connection be self))).
Proof.
  unfold check_connection, cc_state, cc_status.
  destruct self as [cd cfg params cl flag].
  destruct (probe be _) as [tr [[] | e]]; simpl; destruct flag; reflexivity.
Qed.

(** X2: [connect] makes a constructor call exactly when the flag is
    down, and connecting twice is connecting once: after a [connect], a
    second [connect] against the same store leaves the handler as it is,
    and makes no call when the first one succeeded. *)
Theorem connect_twice :
  forall (be : Backend) (self : XataHandler),
    fst (connect be self) =
      (if is_connected self then [] else [CXataClient (_client_config self)]) /\
    snd (connect be (snd (connect be self))) = snd (connect be self) /\
    (is_connected (snd (connect be self)) = true ->
     connect be (snd (connect be self)) = ([], snd (connect be self))).
Proof.
  intros be self. split; [| split].
  - unfold connect. destruct (is_connected self); [reflexivity |].
    destruct (be_XataClient be _); reflexivity.
  - destruct self as [cd cfg params cl flag]. unfold connect. simpl.
    destruct flag; simpl; [reflexivity |].
    destruct (be_XataClient be cfg) as [e | c] eqn:E; simpl; [| reflexivity].
    rewrite E. reflexivity.
  - apply connect_idempotent.
Qed.

Lemma connect_twice_witness :
  is_connected (snd (connect be_ok (disconnect sample_handler))) = true /\
  connect be_ok (snd (connect be_ok (disconnect sample_handler))) =
    ([], snd (connect be_ok (disconnect sample_handler))).
Proof.
  split; [reflexivity |].
  apply (proj2 (proj2 (connect_twice be_ok (disconnect sample_handler)))).
  reflexivity.
Defined.

(** X3: [disconnect] always leaves the flag down and is idempotent, but
    it releases the client only when the flag was up: on a handler whose
    flag is already down the client object stays. *)
Theorem disconnect_releases_only_when_connected :
  forall (self : XataHandler),
    is_connected (disconnect self) = false /\
    disconnect (disconnect self) = disconnect self /\
    _client (disconnect self) = (if is_connected self then None else _client self).
Proof.
  intros self. split; [apply disconnect_is_connected | split].
  - apply disconnect_when_down, disconnect_is_connected.
  - unfold disconnect. destruct (is_connected self); reflexivity.
Qed.

(** X4: [check_connection] never builds or releases a client and never
    touches the configuration: it makes the one probe call when there is
    a client object and no call otherwise, and the only change to the
    handler is that the flag becomes the conjunction of the old flag and
    the success of the probe.  A second check against the same store
    repeats the status and changes nothing more. *)
Theorem check_connection_only_lowers_flag :
  forall (be : Backend) (self : XataHandler),
    let once := check_connection be self in
    fst (fst once) = (match _client self with Some _ => [CUsersGet] | None => [] end) /\
    cc_state once =
      set_is_connected self (is_connected self && success (cc_status once)) /\
    _client (cc_state once) = _client self /\
    cc_status (check_connection be (cc_state once)) = cc_status once /\
    cc_state (check_connection be (cc_state once)) = cc_state once.
Proof.
  intros be self once. subst once.
  assert (Hprobe : forall s, _client s = _client self -> probe be s = probe be self).
  { intros s Hs. unfold probe, client_attr. now rewrite Hs. }
  assert (Hcl : _client (cc_state (check_connection be self)) = _client self)
    by (rewrite check_connection_state; reflexivity).
  assert (Hst : cc_status (check_connection be (cc_state (check_connection be self))) =
                cc_status (check_connection be self)).
  { unfold check_connection at 1 3, cc_status. rewrite (Hprobe _ Hcl).
    destruct (probe be self) as [tr [[] | e]]; reflexivity. }
  split; [| split; [apply check_connection_state | split; [exact Hcl | split]]].
  - unfold check_connection, probe, client_attr.
    destruct (_client self) as [c |]; simpl; [| reflexivity].
    destruct (be_users_get be c) as [e | []]; reflexivity.
  - exact Hst.
  - rewrite (check_connection_state be (cc_state (check_connection be self))), Hst.
    rewrite check_connection_state. destruct self as [cd cfg params cl flag].
    unfold set_is_connected. simpl.
    destruct flag, (success (cc_status (check_connection be _))); reflexivity.
Qed.

(** X5: after a health check that failed on a connected handler, the
    handler is flagged disconnected but still holds the old client
    object, [disconnect] does not release it, and the next [connect]
    builds a new client instead of reusing it. *)
Theorem failed_check_leaves_stale_client :
  forall (be be' : Backend) (self : XataHandler) (c : Client),
    is_connected self = true ->
    _client self = Some c ->
    success (cc_status (check_connection be self)) = false ->
    let after := cc_state (check_connection be self) in
    is_connected after = false /\
    _client after = Some c /\
    disconnect after = after /\
    fst (connect be' after) = [CXataClient (_client_config self)].
Proof.
  intros be be' self c Hflag Hc Hfail after. subst after.
  rewrite check_connection_state, Hflag, Hfail. simpl.
  repeat split.
  - exact Hc.
  - unfold connect. simpl. destruct (be_XataClient be' _); reflexivity.
Qed.

Lemma failed_check_leaves_stale_client_witness :
  is_connected (cc_state (check_connection be_down sample_handler)) = false /\
  _client (cc_state (check_connection be_down sample_handler)) =
    Some (mkClient (_client_config sample_handler)) /\
  disconnect (cc_state (check_connection be_down sample_handler)) =
    cc_state (check_connection be_down sample_handler) /\
  fst (connect be_ok (cc_state (check_connection be_down sample_handler))) =
    [CXataClient (_client_config sample_handler)].
Proof.
  exact (failed_check_leaves_stale_client
           be_down be_ok sample_handler (mkClient (_client_config sample_handler))
           eq_refl eq_refl eq_refl).
Defined.

(** What holds of every handler that the connection methods produce,
    by induction on how it was produced. *)
Lemma reachable_invariant_core :
  forall (self : XataHandler),
    reachable self ->
    (is_connected self = true -> exists c, _client self = Some c) /\
    _client_config self =
      mkClientConfig (dict_get (_connection_data self) "db_url")
                     (dict_get (_connection_data self) "api_key") /\
    _create_table_params self =
      [("dimension", dict_get_default (_connection_data self) "db_url" (VInt 8))].
Proof.
  intros self H. induction H as [be cd | be s H IH | s H IH | be s H IH].
  - unfold init, connect. simpl.
    destruct (be_XataClient be _); simpl; repeat split; eauto; discriminate.
  - destruct IH as [IH1 [IH2 IH3]].
    destruct (connect_frame be s) as [F1 [F2 F3]].
    rewrite F1, F2, F3. repeat split; auto.
    unfold connect. destruct (is_connected s) eqn:E; simpl; [auto |].
    destruct (be_XataClient be _); simpl; [discriminate | eauto].
  - destruct IH as [IH1 [IH2 IH3]].
    destruct (disconnect_frame s) as [F1 [F2 F3]].
    rewrite F1, F2, F3. repeat split; auto.
    rewrite disconnect_is_connected. discriminate.
  - destruct IH as [IH1 [IH2 IH3]].
    rewrite check_connection_state. simpl. repeat split; auto.
    intros Hflag. apply andb_prop in Hflag. destruct Hflag as [Hflag _]. auto.
Qed.

(** X6: on every handler that [__init__], [connect], [disconnect] and
    [check_connection] can produce, a raised flag comes with a client
    object, the client configuration is the [db_url] and [api_key] of the
    connection data, and the dimension kept for [create_table] is the
    value under [db_url] (8 without one), whatever the connection data
    hold under [dimension]. *)
Theorem reachable_invariant :
  forall (self : XataHandler),
    reachable self ->
    (is_connected self = true -> exists c, _client self = Some c) /\
    _client_config self =
      mkClientConfig (dict_get (_connection_data self) "db_url")
                     (dict_get (_connection_data self) "api_key") /\
    _create_table_params self =
      [("dimension", dict_get_default (_connection_data self) "db_url" (VInt 8))].
Proof. exact reachable_invariant_core. Qed.

Lemma reachable_invariant_witness :
  reachable sample_handler_after_failed_check /\
  exists c, _client sample_handler = Some c.
Proof.
  split.
  - exact (reach_check_connection be_down (reach_init be_ok sample_connection_data)).
  - exact (proj1 (reachable_invariant sample_handler
                    (reach_init be_ok sample_connection_data)) eq_refl).
Defined.

(** ** Provisioning on a connected handler *)

(** X7: on every connected handler that the connection methods can
    produce, [create_table] never raises and never deletes anything.  It
    first creates the table; only when that returns does it set the
    schema, three columns whose vector dimension is the value under
    [db_url] (8 without one); a failure of either call gives the error
    response with the cause, and after a failed [set_schema] the created
    table is left as it is. *)
Theorem create_table_on_connected_handler :
  forall (be : Backend) (self : XataHandler) (table_name : string),
    reachable self ->
    is_connected self = true ->
    exists c,
      _client self = Some c /\
      existsb is_table_delete (trace (create_table be self table_name)) = false /\
      let columns :=
        schema_columns (dict_get_default (_connection_data self) "db_url" (VInt 8)) in
      let error e :=
        Returned (Response_ERROR
                    ("Unable to create table '" ++ table_name ++ "': " ++ str_exn e)) in
      create_table be self table_name =
      match be_table_create be c table_name with
      | inl e => ([CTableCreate table_name], error e)
      | inr _ =>
          ( [CTableCreate table_name; CTableSetSchema table_name columns],
            match be_table_set_schema be c table_name columns with
            | inl e => error e
            | inr _ => Returned Response_OK
            end )
      end.
Proof.
  intros be self table_name Hreach Hflag.
  destruct (reachable_invariant_core self Hreach) as [Hclient [_ Hparams]].
  destruct (Hclient Hflag) as [c Hc]. exists c. split; [exact Hc |].
  unfold create_table, client_attr, schema_columns. rewrite Hc, Hparams.
  cbn [dict_get String.eqb Ascii.eqb Bool.eqb lift bind ret call try_except app
       fst snd trace].
  destruct (be_table_create be c table_name) as [e | []]; simpl; [auto |].
  destruct (be_table_set_schema be c table_name _) as [e | []]; simpl; auto.
Qed.

Lemma create_table_on_connected_handler_witness :
  exists c,
    _client sample_handler = Some c /\
    existsb is_table_delete (trace (create_table be_ok sample_handler "docs")) = false.
Proof.
  destruct (create_table_on_connected_handler
              be_ok sample_handler "docs"
              (reach_init be_ok sample_connection_data) eq_refl)
    as [c [Hc [Hdel _]]].
  exists c. split; [exact Hc | exact Hdel].
Defined.

(** X8: after [disconnect] on a connected handler, [connect] is the one
    method that goes back to the store: it calls the constructor.
    [check_connection], [create_table], [drop_table], [get_columns],
    [get_tables], [insert], [select] and [delete] make no call.
    [check_connection] reports a failure; [create_table], [drop_table],
    [get_columns] and [get_tables] return error responses that carry the
    text of the [AttributeError] for the missing client, whatever the
    store would have answered; [insert] raises the [AttributeError] of
    line 157; [select], and a [delete] with a usable condition, raise the
    [AttributeError] for the missing client. *)
Theorem only_connect_reconnects_after_disconnect :
  forall (be : Backend) (tr : option (list FilterCondition) -> option FilterExpr)
         (be_get_columns : Client -> string -> exn + ApiResponse)
         (super_get_columns : string -> outcome Response)
         (be_get_details : Client -> exn + dict pyval)
         (pd_DataFrame_rows : list string -> list pyval -> exn + DataFrame)
         (self : XataHandler) (table_name : string) (data : DataFrame)
         (columns : option (list string))
         (conditions : option (list FilterCondition)) (offset limit : option Z)
         (cs : list FilterCondition),
    is_connected self = true ->
    tr (Some cs) <> None \/ id_filters_of (Some cs) <> None ->
    let down := disconnect self in
    let no_attr a :=
      AttributeError ("'NoneType' object has no attribute '" ++ a ++ "'") in
    fst (connect be down) = [CXataClient (_client_config self)] /\
    check_connection be down =
      ([], down, mkStatusResponse false (Some (str_exn (no_attr "users")))) /\
    create_table be down table_name =
      ([], Returned (Response_ERROR
             ("Unable to create table '" ++ table_name ++ "': " ++
              str_exn (no_attr "table")))) /\
    drop_table be down table_name =
      ([], Returned (Response_ERROR
             ("Error deleting table '" ++ table_name ++ "': " ++
              str_exn (no_attr "table")))) /\
    get_columns be_get_columns super_get_columns down table_name =
      Returned (Response_ERROR (str_exn (no_attr "table"))) /\
    get_tables be_get_details pd_DataFrame_rows down =
      Returned (Response_ERROR
                  ("Error getting list of tables: " ++ str_exn (no_attr "branch"))) /\
    insert be down table_name data columns =
      ([], Raised (AttributeError "'list' object has no attribute 'columns'")) /\
    select be tr down table_name columns conditions offset limit =
      ([], Raised (no_attr "get_collection")) /\
    delete be tr down table_name (Some cs) =
      ([], Raised (no_attr "get_collection")) /\
    trace (delete be tr down table_name conditions) = [].
Proof.
  intros be tr be_gc super be_gd pd self table_name data columns conditions
         offset limit cs Hflag Hsome down no_attr.
  assert (Hc : _client down = None)
    by (subst down; unfold disconnect; rewrite Hflag; reflexivity).
  assert (Hf : is_connected down = false)
    by (subst down; apply disconnect_is_connected).
  assert (Hcfg : _client_config down = _client_config self)
    by (subst down; apply disconnect_frame).
  subst no_attr. repeat split.
  - unfold connect. rewrite Hf, Hcfg.
    destruct (be_XataClient be (_client_config self)); reflexivity.
  - unfold check_connection, probe, client_attr. rewrite Hc. simpl.
    rewrite Hf. reflexivity.
  - unfold create_table, client_attr. rewrite Hc. reflexivity.
  - unfold drop_table, client_attr. rewrite Hc. reflexivity.
  - unfold get_columns, client_of. rewrite Hc. reflexivity.
  - unfold get_tables, client_of. rewrite Hc. reflexivity.
  - unfold select, select_fetch, client_attr. rewrite Hc. reflexivity.
  - rewrite id_filters_of_list in Hsome. unfold delete, client_attr. rewrite Hc.
    destruct (tr (Some cs)); destruct (or_None (map value (filter is_id cs)));
      try reflexivity.
    destruct Hsome; congruence.
  - unfold delete, client_attr. rewrite Hc.
    destruct conditions as [l |]; [| reflexivity].
    destruct (tr (Some l)); destruct (or_None (map value (filter is_id l)));
      reflexivity.
Qed.

Lemma only_connect_reconnects_after_disconnect_witness :
  fst (connect be_ok (disconnect sample_handler)) =
    [CXataClient (_client_config sample_handler)] /\
  get_tables (fun _ => inr sample_details) one_column_frame
             (disconnect sample_handler) =
    Returned (Response_ERROR
      "Error getting list of tables: 'NoneType' object has no attribute 'branch'") /\
  select be_ok translate_metadata_condition (disconnect sample_handler) "docs"
         None None None None =
    ([], Raised (AttributeError "'NoneType' object has no attribute 'get_collection'")) /\
  delete be_ok translate_metadata_condition (disconnect sample_handler) "docs"
         (Some [id_condition]) =
    ([], Raised (AttributeError "'NoneType' object has no attribute 'get_collection'")).
Proof.
  assert (Hsome :
    translate_metadata_condition (Some [id_condition]) <> None \/
    id_filters_of (Some [id_condition]) <> None)
    by (right; discriminate).
  pose proof (only_connect_reconnects_after_disconnect
                be_ok translate_metadata_condition
                (fun _ _ => inr (mkApiResponse true None))
                (fun _ => Returned super_columns_answer)
                (fun _ => inr sample_details) one_column_frame
                sample_handler "docs" one_row_frame
                None None None None [id_condition] eq_refl Hsome) as H.
  cbv zeta in H.
  destruct H as [Hcon [_ [_ [_ [_ [Htab [_ [Hsel [Hdel _]]]]]]]]].
  split; [exact Hcon | split; [exact Htab | split; [exact Hsel | exact Hdel]]].
Defined.

(** ** The write paths of lines 159-208 *)

Lemma dict_mem_item {V} (d : dict V) (k : string) :
  dict_mem d k = true -> exists v, dict_item d k = inr v.
Proof.
  unfold dict_mem, dict_item. destruct (dict_get d k); [eauto | discriminate].
Qed.

(** A [try] around a body that can only return the success response,
    with the handler of [insert]. *)
Lemma try_insert_error (table_name : string) (body : M Response) :
  (forall r, result body = Returned r -> r = Response_OK) ->
  exists r,
    result (try_except body (insert_error table_name)) = Returned r /\
    (r = Response_OK \/
     exists e, r = Response_ERROR
                     ("Error inserting data into '" ++ table_name ++ "': " ++ str_exn e)).
Proof.
  intros Hbody. destruct body as [t0 [r | e]]; simpl in *.
  - exists r. split; [reflexivity |]. left. auto.
  - eexists. split; [reflexivity |]. right. eauto.
Qed.

Lemma bind_ends_ok {A} (m : M A) (r : Response) :
  result (bind m (fun _ => ret Response_OK)) = Returned r -> r = Response_OK.
Proof.
  destruct m as [t0 [a | e]]; simpl; [| discriminate]. now intros [= <-].
Qed.

Lemma bind_body_ok {A} (m : M A) (k : A -> M Response) (r : Response) :
  (forall a r', result (k a) = Returned r' -> r' = Response_OK) ->
  result (bind m k) = Returned r -> r = Response_OK.
Proof.
  intros Hk H. destruct (bind_returned_inv m k r H) as [a [_ [Ha _]]]. eauto.
Qed.

Lemma bind_ret_l {A B} (a : A) (k : A -> M B) : bind (ret a) k = k a.
Proof. unfold bind, ret. destruct (k a). reflexivity. Qed.

Lemma insert_path_outcomes (table_name : string) (body : M Response) :
  (forall r, result body = Returned r -> r = Response_OK) ->
  (forall e, result (try_except body (insert_error table_name)) <> Raised e) /\
  (forall r, result (try_except body (insert_error table_name)) = Returned r ->
     r = Response_OK \/
     exists e, r = Response_ERROR
       ("Error inserting data into '" ++ table_name ++ "': " ++ str_exn e)).
Proof.
  intros Hbody. destruct (try_insert_error table_name body Hbody) as [r [Hr Hor]].
  rewrite Hr. split; [discriminate |]. now intros r' [= <-].
Qed.

Lemma status_check_ok (resp : ApiResponse) (r : Response) :
  result ((if negb (is_success resp)
           then m <- lift (resp_message resp) ;; raise (PyException m)
           else ret tt) ;; ret Response_OK) = Returned r ->
  r = Response_OK.
Proof. apply bind_ends_ok. Qed.

(** A goal about a write path that is one [try]: no exception leaves it,
    and what it returns is the success or the error response. *)
Ltac close_path body_ok :=
  match goal with
  | |- context [try_except ?b (insert_error ?t)] =>
      let Hno := fresh "Hno" in
      let Hyes := fresh "Hyes" in
      destruct (insert_path_outcomes t b) as [Hno Hyes];
      [ body_ok
      | split; [intros e He; exfalso; exact (Hno e He) | exact Hyes] ]
  end.

(** X9: the only exception that leaves the write paths is the
    [TypeError] of line 173, for a single row that has an id when no
    column list is given, and it comes before any call on the store.
    Every other run returns the success response or the error response
    that names the table and carries the cause. *)
Theorem insert_dispatch_outcomes :
  forall (be : Backend) (self : XataHandler) (table_name : string)
         (data : list record) (columns : option (list string)),
    (forall e,
       result (insert_dispatch be self table_name data columns) = Raised e ->
       columns = None /\
       (exists row, data = [row] /\ dict_mem row "id" = true) /\
       insert_dispatch be self table_name data columns =
         ([], Raised (TypeError "argument of type 'NoneType' is not iterable"))) /\
    (forall r,
       result (insert_dispatch be self table_name data columns) = Returned r ->
       r = Response_OK \/
       exists e, r = Response_ERROR
                       ("Error inserting data into '" ++ table_name ++ "': " ++ str_exn e)).
Proof.
  intros be self table_name data columns.
  destruct data as [| row [| row2 rest]].
  - split; [discriminate |]. intros r [= <-]. now left.
  - unfold insert_dispatch.
    cbn [length Nat.ltb Nat.leb Nat.eqb index0 lift]. rewrite bind_ret_l.
    destruct (dict_mem row "id") eqn:Hid.
    + destruct columns as [cols |].
      * cbn [in_columns lift]. rewrite bind_ret_l.
        destruct (dict_mem_item row "id" Hid) as [id Hitem].
        destruct (str_in TableField.ID cols).
        -- rewrite Hitem. cbn [lift]. rewrite bind_ret_l.
           close_path ltac:(intros r; apply bind_body_ok; intros c r';
                            apply bind_body_ok; intros resp r'';
                            apply status_check_ok).
        -- close_path ltac:(intros r; apply bind_body_ok; intros c r';
                            apply bind_body_ok; intros resp r'';
                            apply status_check_ok).
      * cbn [in_columns lift]. split; [| discriminate].
        intros e _. split; [reflexivity |]. split; [| reflexivity].
        exists row. auto.
    + rewrite bind_ret_l.
      close_path ltac:(intros r; apply bind_body_ok; intros c r';
                       apply bind_body_ok; intros resp r'';
                       apply status_check_ok).
  - unfold insert_dispatch. cbn [length Nat.ltb Nat.leb].
    close_path ltac:(intros r; apply bind_body_ok; intros c r';
                     apply bind_body_ok; intros u r'';
                     apply bind_ends_ok).
Qed.

Lemma insert_dispatch_outcomes_witness :
  (exists row,
     [[("id", VStr "a"); ("content", VStr "x")]] = [row] /\ dict_mem row "id" = true) /\
  (Response_ERROR "Error inserting data into 'docs': connection refused" = Response_OK \/
   exists e,
     Response_ERROR "Error inserting data into 'docs': connection refused" =
     Response_ERROR ("Error inserting data into '" ++ "docs" ++ "': " ++ str_exn e)).
Proof.
  split.
  - exact (proj1 (proj2 (proj1 (insert_dispatch_outcomes
             be_ok sample_handler "docs"
             [[("id", VStr "a"); ("content", VStr "x")]] None) _ eq_refl))).
  - exact (proj2 (insert_dispatch_outcomes
             be_down sample_handler "docs"
             [[("content", VStr "x")]] (Some ["content"])) _ eq_refl).
Defined.

(** Deleting a key from a dictionary (keys are unique) removes that key
    and keeps every other entry. *)
Lemma dict_get_del {V} (d : dict V) (k k' : string) :
  NoDup (dict_keys d) ->
  dict_get (dict_del d k) k' = if String.eqb k k' then None else dict_get d k'.
Proof.
  unfold dict_keys. induction d as [| [k0 v0] d IH]; simpl; intros Hnd.
  - now destruct (String.eqb k k').
  - inversion Hnd as [| ? ? Hnotin Hnd']; subst.
    destruct (String.eqb k0 k) eqn:E0.
    + apply String.eqb_eq in E0. subst k0.
      destruct (String.eqb k k') eqn:E; [| reflexivity].
      apply String.eqb_eq in E. subst k'.
      destruct (dict_get d k) eqn:G; [| reflexivity].
      exfalso. apply Hnotin. apply (dict_keys_get d k). congruence.
    + simpl. destruct (String.eqb k0 k') eqn:E1.
      * apply String.eqb_eq in E1. subst k'. now rewrite String.eqb_sym, E0.
      * now apply IH.
Qed.

(** X10: on the path with an explicit id, the record id sent is the
    row's [id] and the payload sent is the row without it: the payload
    has no [id] and agrees with the row on every other field. *)
Theorem insert_with_id_payload :
  forall (be : Backend) (self : XataHandler) (table_name : string)
         (row : record) (cols : list string) (c : Client) (id : pyval),
    _client self = Some c ->
    NoDup (dict_keys row) ->
    dict_get row "id" = Some id ->
    str_in TableField.ID cols = true ->
    exists payload,
      trace (insert_dispatch be self table_name [row] (Some cols)) =
        [CInsertWithId table_name id payload true (Some cols)] /\
      dict_get payload "id" = None /\
      forall k, k <> "id" -> dict_get payload k = dict_get row k.
Proof.
  intros be self table_name row cols c id Hc Hnd Hid Hdecl.
  exists (dict_del row "id").
  split; [exact (proj1 (insert_dispatch_with_id be self table_name row cols c id
                          Hc Hid Hdecl)) |].
  split.
  - rewrite dict_get_del by exact Hnd. reflexivity.
  - intros k Hk. rewrite dict_get_del by exact Hnd.
    destruct (String.eqb "id" k) eqn:E; [| reflexivity].
    apply String.eqb_eq in E. congruence.
Qed.

Lemma insert_with_id_payload_witness :
  exists payload,
    trace (insert_dispatch be_ok sample_handler "docs"
             [[("content", VStr "x"); ("id", VStr "a"); ("metadata", VNone)]]
             (Some ["id"; "content"])) =
      [CInsertWithId "docs" (VStr "a") payload true (Some ["id"; "content"])] /\
    dict_get payload "id" = None /\
    forall k, k <> "id" ->
      dict_get payload k =
      dict_get [("content", VStr "x"); ("id", VStr "a"); ("metadata", VNone)] k.
Proof.
  assert (Hnd : NoDup (dict_keys [("content", VStr "x"); ("id", VStr "a");
                                  ("metadata", VNone)])).
  { unfold dict_keys. simpl.
    repeat constructor; simpl; intuition discriminate. }
  exact (insert_with_id_payload
           be_ok sample_handler "docs"
           [("content", VStr "x"); ("id", VStr "a"); ("metadata", VNone)]
           ["id"; "content"] (mkClient (_client_config sample_handler)) (VStr "a")
           eq_refl Hnd eq_refl eq_refl).
Defined.

(** X11: a batch of two or more rows is handed over whole, in its order,
    by one [put_records]; the queue is flushed only when that returned;
    the column list and the ids in the rows play no part.  The result is
    the success response when both calls returned and otherwise the error
    response with the cause. *)
Theorem insert_bulk_path :
  forall (be : Backend) (self : XataHandler) (table_name : string)
         (r1 r2 : record) (rest : list record) (columns : option (list string))
         (c : Client),
    _client self = Some c ->
    let data := r1 :: r2 :: rest in
    let error e :=
      Returned (Response_ERROR
                  ("Error inserting data into '" ++ table_name ++ "': " ++ str_exn e)) in
    insert_dispatch be self table_name data columns =
    match be_put_records be c table_name data with
    | inl e => ([CPutRecords table_name data], error e)
    | inr _ =>
        ( [CPutRecords table_name data; CFlushQueue],
          match be_flush_queue be c with
          | inl e => error e
          | inr _ => Returned Response_OK
          end )
    end.
Proof.
  intros be self table_name r1 r2 rest columns c Hc data error. subst data error.
  unfold insert_dispatch, client_attr. cbn [length Nat.ltb Nat.leb].
  rewrite Hc. rewrite bind_ret_l.
  destruct (be_put_records be c table_name (r1 :: r2 :: rest)) as [e | []];
    [reflexivity |].
  destruct (be_flush_queue be c) as [e | []]; reflexivity.
Qed.

Lemma insert_bulk_path_witness :
  insert_dispatch be_ok sample_handler "docs"
    [[("id", VStr "a")]; [("id", VStr "b")]] None =
  ( [CPutRecords "docs" [[("id", VStr "a")]; [("id", VStr "b")]]; CFlushQueue],
    Returned Response_OK ).
Proof.
  exact (insert_bulk_path be_ok sample_handler "docs"
           [("id", VStr "a")] [("id", VStr "b")] [] None
           (mkClient (_client_config sample_handler)) eq_refl).
Defined.

(** ** What select reads from the conditions *)

(** X12: a similarity search takes no account of the offset: with a
    condition on the search vector, two calls of [select] that differ
    only in [offset] make the same calls and give the same result. *)
Theorem select_similarity_ignores_offset :
  forall (be : Backend) (tr : option (list FilterCondition) -> option FilterExpr)
         (self : XataHandler) (table_name : string) (columns : option (list string))
         (conditions : option (list FilterCondition)) (offset offset' limit : option Z),
    targets_search_vector conditions ->
    select be tr self table_name columns conditions offset limit =
    select be tr self table_name columns conditions offset' limit.
Proof.
  intros be tr self table_name columns conditions offset offset' limit Ht.
  apply vector_filter_of_some in Ht. destruct Ht as [vf Hvf].
  unfold select, select_fetch. rewrite Hvf. reflexivity.
Qed.

Lemma select_similarity_ignores_offset_witness :
  select be_ok translate_metadata_condition sample_handler "docs" None
         (Some [search_condition]) None (Some 5%Z) =
  select be_ok translate_metadata_condition sample_handler "docs" None
         (Some [search_condition]) (Some 10%Z) (Some 5%Z).
Proof.
  apply select_similarity_ignores_offset.
  exists [search_condition], search_condition.
  split; [reflexivity | split; [now left | reflexivity]].
Defined.

Lemma filter_none {A} (f : A -> bool) (l : list A) :
  forallb (fun x => negb (f x)) l = true -> filter f l = [].
Proof.
  induction l as [| x l IH]; simpl; [reflexivity |].
  destruct (f x); simpl; [discriminate | exact IH].
Qed.

(** X13: when several conditions are on the search vector, the first one
    in the list is the query: its value is the embedding of the one
    similarity query, and the later ones are not used for it. *)
Theorem select_first_vector_condition_wins :
  forall (be : Backend) (tr : option (list FilterCondition) -> option FilterExpr)
         (self : XataHandler) (table_name : string) (columns : option (list string))
         (before after : list FilterCondition) (first : FilterCondition)
         (offset limit : option Z) (c : Client) (collection : Collection),
    _client self = Some c ->
    be_get_collection be c table_name = inr collection ->
    forallb (fun x => negb (is_search_vector x)) before = true ->
    column first = TableField.SEARCH_VECTOR ->
    let conditions := Some ((before ++ first :: after)%list) in
    trace (select be tr self table_name columns conditions offset limit) =
    [ CGetCollection table_name;
      CQuery collection
             (mkQueryPayload (tr conditions) (value first)
                             ["metadatas"; "documents"; "distances"] limit) ].
Proof.
  intros be tr self table_name columns before after first offset limit c collection
         Hc Hcol Hbefore Hfirst conditions.
  subst conditions. rewrite select_trace.
  assert (Hvf : vector_filter_of (Some ((before ++ first :: after)%list)) = Some first).
  { unfold vector_filter_of. rewrite filter_app, (filter_none _ _ Hbefore).
    simpl. apply is_search_vector_spec in Hfirst. rewrite Hfirst. reflexivity. }
  exact (proj1 (select_fetch_similarity be tr self table_name _ offset limit
                  c collection first Hc Hcol Hvf)).
Qed.

Lemma select_first_vector_condition_wins_witness :
  trace (select be_ok translate_metadata_condition sample_handler "docs" None
           (Some (([id_condition] ++
                   search_condition ::
                   [mkFilterCondition TableField.SEARCH_VECTOR EQUAL
                                      (VList [VFloat "9.9"])])%list))
           None None) =
  [ CGetCollection "docs";
    CQuery (mkCollection "docs")
           (mkQueryPayload None (VList [VFloat "0.1"; VFloat "0.2"])
                           ["metadatas"; "documents"; "distances"] None) ].
Proof.
  exact (select_first_vector_condition_wins
           be_ok translate_metadata_condition sample_handler "docs" None
           [id_condition]
           [mkFilterCondition TableField.SEARCH_VECTOR EQUAL (VList [VFloat "9.9"])]
           search_condition None None
           (mkClient (_client_config sample_handler)) (mkCollection "docs")
           eq_refl eq_refl eq_refl eq_refl).
Defined.

Lemma filter_map_with_op (o : FilterOperator) (f : FilterCondition -> bool)
    (cs : list FilterCondition) :
  (forall c, f (with_op o c) = f c) ->
  map value (filter f (map (with_op o) cs)) = map value (filter f cs).
Proof.
  intros Hf. induction cs as [| c cs IH]; simpl; [reflexivity |].
  rewrite Hf. destruct (f c); simpl; now rewrite IH.
Qed.

(** X14: the operator of a condition on [id] or on [search_vector] is
    never looked at.  Replacing every operator by another one leaves the
    id filter and the query embedding as they were; an id condition
    under [NOT_EQUAL] selects the same ids as under [EQUAL]. *)
Theorem id_and_vector_conditions_ignore_operator :
  forall (o : FilterOperator) (cs : list FilterCondition),
    id_filters_of (Some (map (with_op o) cs)) = id_filters_of (Some cs) /\
    option_map value (vector_filter_of (Some (map (with_op o) cs))) =
    option_map value (vector_filter_of (Some cs)).
Proof.
  intros o cs. split.
  - rewrite !id_filters_of_list.
    now rewrite (filter_map_with_op o is_id cs) by reflexivity.
  - unfold vector_filter_of.
    pose proof (filter_map_with_op o is_search_vector cs (fun c => eq_refl)) as H.
    destruct (filter is_search_vector (map (with_op o) cs)) as [| x l];
      destruct (filter is_search_vector cs) as [| y l']; simpl in *;
      try discriminate; [reflexivity |].
    now injection H as -> _.
Qed.

(** ** The shape of the returned table *)

Lemma str_in_keys {V} (d : dict V) (k : string) :
  str_in k (dict_keys d) = dict_mem d k.
Proof.
  unfold str_in, dict_keys, dict_mem.
  induction d as [| [k0 v0] d IH]; simpl; [reflexivity |].
  rewrite (String.eqb_sym k k0). destruct (String.eqb k0 k); simpl; auto.
Qed.

Lemma dict_keys_set_cases {V} (d : dict V) (k : string) (v : V) :
  dict_keys (dict_set d k v) =
  if str_in k (dict_keys d) then dict_keys d else (dict_keys d ++ [k])%list.
Proof.
  unfold str_in, dict_keys. induction d as [| [k0 v0] d IH]; simpl; [reflexivity |].
  rewrite (String.eqb_sym k k0). destruct (String.eqb k0 k) eqn:E; simpl.
  - reflexivity.
  - rewrite IH. now destruct (existsb (String.eqb k) (map fst d)).
Qed.

Lemma filter_twice {A} (f g : A -> bool) (l : list A) :
  filter g (filter f l) = filter (fun x => f x && g x) l.
Proof.
  induction l as [| x l IH]; simpl; [reflexivity |].
  destruct (f x); simpl; [destruct (g x); now rewrite IH | exact IH].
Qed.

Lemma filter_all {A} (f : A -> bool) (l : list A) :
  (forall x, f x = true) -> filter f l = l.
Proof.
  intros Hf. induction l as [| x l IH]; simpl; [reflexivity |].
  now rewrite Hf, IH.
Qed.

(** The keys of the projected dictionary, in order: those of [acc], then
    the new names in the order of their first listing. *)
Lemma project_from_order (cols : list string) (payload acc d : dict (list pyval)) :
  project_from cols payload acc = inr d ->
  dict_keys d =
  (dict_keys acc ++
   filter (fun c => negb (str_in c (dict_keys acc)))
          (dedup (filter not_embeddings cols)))%list.
Proof.
  revert acc. induction cols as [| c cols IH]; intros acc; simpl.
  - intros [= <-]. now rewrite app_nil_r.
  - unfold not_embeddings at 1.
    destruct (String.eqb c TableField.EMBEDDINGS) eqn:E; simpl.
    + apply IH.
    + destruct (dict_get payload c) as [v |] eqn:G; [| discriminate].
      intros H. rewrite (IH _ H), dict_keys_set_cases.
      destruct (str_in c (dict_keys acc)) eqn:Hin; simpl.
      * f_equal. rewrite filter_twice. apply filter_ext. intros y.
        destruct (String.eqb c y) eqn:Ecy; simpl; [| reflexivity].
        apply String.eqb_eq in Ecy. subst y. now rewrite Hin.
      * rewrite <- app_assoc. simpl. f_equal. f_equal.
        rewrite filter_twice. apply filter_ext. intros y.
        unfold str_in. rewrite existsb_app. simpl.
        rewrite Bool.orb_false_r, Bool.negb_orb, (String.eqb_sym y c).
        apply Bool.andb_comm.
Qed.

Lemma select_frame_order (columns : option (list string))
    (ids documents metadatas : list pyval) (distances : option (list pyval))
    (df : DataFrame) :
  select_frame columns (ids, documents, metadatas, distances) = inr df ->
  df_columns df =
  (match columns with
   | Some cols => dedup (filter not_embeddings cols)
   | None => [TableField.ID; TableField.CONTENT; TableField.METADATA]
   end ++
   match distances with
   | Some _ => [TableField.DISTANCE]
   | None => []
   end)%list.
Proof.
  intros Hf. destruct (select_frame_inv _ _ _ _ _ _ Hf) as [payload [Hp Hd]].
  pose proof (projected_payload_no_distance columns ids documents metadatas payload Hp)
    as Hno.
  assert (Hbase : dict_keys payload =
                  match columns with
                  | Some cols => dedup (filter not_embeddings cols)
                  | None => [TableField.ID; TableField.CONTENT; TableField.METADATA]
                  end).
  { destruct columns as [cols |].
    - unfold project in Hp. rewrite (project_from_order _ _ _ _ Hp). simpl.
      apply filter_all. reflexivity.
    - now subst payload. }
  unfold df_columns. rewrite Hd. destruct distances as [dist |].
  - rewrite dict_keys_set_cases, str_in_keys. unfold dict_mem. rewrite Hno.
    now rewrite Hbase.
  - now rewrite Hbase, app_nil_r.
Qed.

(** X15: the columns of the table that [select] returns, in order: the
    names of the projection list in the caller's order, without
    [embeddings] and with a repeated name kept at its first place only
    ([id], [content], [metadata] when no list is given), followed by
    [distance] when a condition on the search vector made it a similarity
    search. *)
Theorem select_column_order :
  forall (be : Backend) (tr : option (list FilterCondition) -> option FilterExpr)
         (self : XataHandler) (table_name : string) (columns : option (list string))
         (conditions : option (list FilterCondition)) (offset limit : option Z)
         (resp : Response),
    result (select be tr self table_name columns conditions offset limit) =
      Returned resp ->
    exists df,
      resp = Response_TABLE df /\
      df_columns df =
      (match columns with
       | Some cols => dedup (filter not_embeddings cols)
       | None => [TableField.ID; TableField.CONTENT; TableField.METADATA]
       end ++
       match vector_filter_of conditions with
       | Some _ => [TableField.DISTANCE]
       | None => []
       end)%list.
Proof.
  intros be tr self table_name columns conditions offset limit resp.
  rewrite select_result.
  pose proof (select_fetch_cases be tr self table_name conditions offset limit) as Hcases.
  cbv zeta in Hcases.
  destruct (result (select_fetch be tr self table_name conditions offset limit))
    as [[[[ids documents] metadatas] distances] | e] eqn:Hres; [| discriminate].
  destruct (select_frame columns (ids, documents, metadatas, distances))
    as [e | df] eqn:Hf; [discriminate |].
  intros [= <-]. exists df. split; [reflexivity |].
  rewrite (select_frame_order _ _ _ _ _ _ Hf). f_equal.
  destruct Hcases as [[_ [e He]] | [Hsim | Hplain]].
  - discriminate.
  - destruct Hsim as [collection [payload [Ht [_ Hd]]]].
    destruct (Hd _ eq_refl) as [d Hsnd]. simpl in Hsnd. subst distances.
    apply vector_filter_of_some in Ht. destruct Ht as [vf ->]. reflexivity.
  - destruct Hplain as [collection [ids0 [filters [Ht [_ Hd]]]]].
    pose proof (Hd _ eq_refl) as Hsnd. simpl in Hsnd. subst distances.
    apply vector_filter_of_none in Ht. now rewrite Ht.
Qed.

Lemma select_column_order_witness :
  exists df,
    result (select be_ok translate_metadata_condition sample_handler "docs"
              (Some ["content"; "embeddings"; "id"; "content"])
              (Some [search_condition]) None None) =
      Returned (Response_TABLE df) /\
    df_columns df = ["content"; "id"; "distance"].
Proof.
  destruct (select_column_order
              be_ok translate_metadata_condition sample_handler "docs"
              (Some ["content"; "embeddings"; "id"; "content"])
              (Some [search_condition]) None None _ eq_refl)
    as [df [Hdf Hcols]].
  exists df. split; [rewrite <- Hdf; reflexivity | exact Hcols].
Defined.

(** X16: [select] hands the store's lists through untouched.  Every
    column of a returned table is, under its own name, one of the four
    lists that the fetch bound: the ids under [id], the documents under
    [content], the metadata under [metadata], the distances under
    [distance]. *)
Theorem select_columns_are_the_fetched_lists :
  forall (be : Backend) (tr : option (list FilterCondition) -> option FilterExpr)
         (self : XataHandler) (table_name : string) (columns : option (list string))
         (conditions : option (list FilterCondition)) (offset limit : option Z)
         (resp : Response),
    result (select be tr self table_name columns conditions offset limit) =
      Returned resp ->
    exists df ids documents metadatas distances,
      result (select_fetch be tr self table_name conditions offset limit) =
        Returned (ids, documents, metadatas, distances) /\
      resp = Response_TABLE df /\
      forall k col,
        dict_get (df_data df) k = Some col ->
        (k = TableField.ID /\ col = ids) \/
        (k = TableField.CONTENT /\ col = documents) \/
        (k = TableField.METADATA /\ col = metadatas) \/
        (k = TableField.DISTANCE /\ distances = Some col).
Proof.
  intros be tr self table_name columns conditions offset limit resp.
  rewrite select_result.
  destruct (result (select_fetch be tr self table_name conditions offset limit))
    as [[[[ids documents] metadatas] distances] | e] eqn:Hres; [| discriminate].
  destruct (select_frame columns (ids, documents, metadatas, distances))
    as [e | df] eqn:Hf; [discriminate |].
  intros [= <-]. exists df, ids, documents, metadatas, distances.
  split; [reflexivity | split; [reflexivity |]].
  destruct (select_frame_inv _ _ _ _ _ _ Hf) as [payload [Hp Hd]].
  assert (Hpay : forall k col, dict_get payload k = Some col ->
            (k = TableField.ID /\ col = ids) \/
            (k = TableField.CONTENT /\ col = documents) \/
            (k = TableField.METADATA /\ col = metadatas)).
  { assert (Hu : forall k col,
              dict_get (uniform_payload ids documents metadatas) k = Some col ->
              (k = TableField.ID /\ col = ids) \/
              (k = TableField.CONTENT /\ col = documents) \/
              (k = TableField.METADATA /\ col = metadatas)).
    { intros k col. unfold uniform_payload. cbn [dict_get].
      destruct (String.eqb TableField.ID k) eqn:E1;
        [apply String.eqb_eq in E1; intros [= <-]; auto |].
      destruct (String.eqb TableField.CONTENT k) eqn:E2;
        [apply String.eqb_eq in E2; intros [= <-]; auto |].
      destruct (String.eqb TableField.METADATA k) eqn:E3;
        [apply String.eqb_eq in E3; intros [= <-]; auto |].
      discriminate. }
    destruct columns as [cols |].
    - intros k col Hk. apply Hu. unfold project in Hp.
      apply (project_from_values cols _ [] payload Hp); [| exact Hk].
      intros ? ? ?. discriminate.
    - now subst payload. }
  intros k col. rewrite Hd. destruct distances as [d |]; [| auto using Hpay].
  - destruct (String.eqb TableField.DISTANCE k) eqn:E.
    + apply String.eqb_eq in E. subst k. rewrite dict_get_set_same.
      intros [= <-]. auto 6.
    + apply String.eqb_neq in E. rewrite dict_get_set_other by exact E.
      intros Hk. destruct (Hpay k col Hk) as [H | [H | H]]; auto.
  - intros Hk. destruct (Hpay k col Hk) as [H | [H | H]]; auto.
Qed.

Lemma select_columns_are_the_fetched_lists_witness :
  exists df ids documents metadatas distances,
    result (select_fetch be_ok translate_metadata_condition sample_handler "docs"
              (Some [id_condition]) None None) =
      Returned (ids, documents, metadatas, distances) /\
    Response_TABLE (mkDataFrame [("content", [VStr "alpha"; VStr "beta"])]) =
      Response_TABLE df /\
    forall k col,
      dict_get (df_data df) k = Some col ->
      (k = TableField.ID /\ col = ids) \/
      (k = TableField.CONTENT /\ col = documents) \/
      (k = TableField.METADATA /\ col = metadatas) \/
      (k = TableField.DISTANCE /\ distances = Some col).
Proof.
  exact (select_columns_are_the_fetched_lists
           be_ok translate_metadata_condition sample_handler "docs"
           (Some ["content"]) (Some [id_condition]) None None _ eq_refl).
Defined.

(** ** get_columns and get_tables *)

(** X17: [get_columns] answers with the inherited description only when
    the store confirms the table.  A failure status becomes the error
    response ["Error getting columns: "] followed by the store's message,
    an exception of the client becomes the error response with its text,
    and in neither case is the inherited description asked. *)
Theorem get_columns_gate :
  forall (be_get_columns : Client -> string -> exn + ApiResponse)
         (super_get_columns : string -> outcome Response)
         (self : XataHandler) (table_name : string) (c : Client),
    _client self = Some c ->
    (forall resp,
       be_get_columns c table_name = inr resp -> is_success resp = true ->
       get_columns be_get_columns super_get_columns self table_name =
       super_get_columns table_name) /\
    (forall m,
       be_get_columns c table_name = inr (mkApiResponse false (Some m)) ->
       get_columns be_get_columns super_get_columns self table_name =
       Returned (Response_ERROR ("Error getting columns: " ++ m))) /\
    (forall e,
       be_get_columns c table_name = inl e ->
       get_columns be_get_columns super_get_columns self table_name =
       Returned (Response_ERROR (str_exn e))).
Proof.
  intros be_gc super self table_name c Hc.
  unfold get_columns, client_of. rewrite Hc. cbn [sum_bind].
  repeat split.
  - intros resp -> Hok. cbn [sum_bind]. rewrite Hok. reflexivity.
  - intros m ->. reflexivity.
  - intros e ->. reflexivity.
Qed.

Lemma get_columns_gate_witness :
  get_columns (fun _ _ => inr (mkApiResponse true None))
              (fun _ => Returned super_columns_answer) sample_handler "docs" =
    Returned super_columns_answer /\
  get_columns (fun _ _ => inr (mkApiResponse false (Some "table not found")))
              (fun _ => Returned super_columns_answer) sample_handler "docs" =
    Returned (Response_ERROR "Error getting columns: table not found") /\
  get_columns (fun _ _ => inl (ClientError "connection refused"))
              (fun _ => Returned super_columns_answer) sample_handler "docs" =
    Returned (Response_ERROR "connection refused").
Proof.
  split; [| split].
  - exact (proj1 (get_columns_gate
                    (fun _ _ => inr (mkApiResponse true None))
                    (fun _ => Returned super_columns_answer) sample_handler "docs"
                    (mkClient (_client_config sample_handler)) eq_refl)
                 _ eq_refl eq_refl).
  - exact (proj1 (proj2 (get_columns_gate
                    (fun _ _ => inr (mkApiResponse false (Some "table not found")))
                    (fun _ => Returned super_columns_answer) sample_handler "docs"
                    (mkClient (_client_config sample_handler)) eq_refl))
                 "table not found" eq_refl).
  - exact (proj2 (proj2 (get_columns_gate
                    (fun _ _ => inl (ClientError "connection refused"))
                    (fun _ => Returned super_columns_answer) sample_handler "docs"
                    (mkClient (_client_config sample_handler)) eq_refl))
                 _ eq_refl).
Defined.

Lemma map_sum_all {A B} (f : A -> exn + B) (l : list A) (ys : list B) :
  Forall2 (fun x y => f x = inr y) l ys -> map_sum f l = inr ys.
Proof.
  induction 1 as [| x y l ys Hx _ IH]; simpl; [reflexivity |].
  now rewrite Hx, IH.
Qed.

Lemma map_sum_first_failure {A B} (f : A -> exn + B) (good rest : list A)
    (bad : A) (ys : list B) (e : exn) :
  Forall2 (fun x y => f x = inr y) good ys ->
  f bad = inl e ->
  map_sum f (good ++ bad :: rest)%list = inl e.
Proof.
  intros Hgood Hbad. induction Hgood as [| x y l ys' Hx _ IH]; simpl.
  - now rewrite Hbad.
  - now rewrite Hx, IH.
Qed.

(** X18: [get_tables] lists the tables of the branch details in the
    store's order: the names under [schema], [tables], [name] are handed,
    all of them and in that order, to the frame constructor as the rows
    of the one column [TABLE_NAME], and its frame is the table returned. *)
Theorem get_tables_lists_names :
  forall (be_get_details : Client -> exn + dict pyval)
         (pd_DataFrame_rows : list string -> list pyval -> exn + DataFrame)
         (self : XataHandler) (c : Client) (details schema : dict pyval)
         (tables names : list pyval) (df : DataFrame),
    _client self = Some c ->
    be_get_details c = inr details ->
    dict_get details "schema" = Some (VDict schema) ->
    dict_get schema "tables" = Some (VList tables) ->
    Forall2 (fun table_data name =>
               exists d, table_data = VDict d /\ dict_get d "name" = Some name)
            tables names ->
    pd_DataFrame_rows ["TABLE_NAME"] names = inr df ->
    get_tables be_get_details pd_DataFrame_rows self = Returned (Response_TABLE df).
Proof.
  intros be_gd pd self c details schema tables names df
         Hc Hdetails Hschema Htables Hnames Hdf.
  assert (Hmap : map_sum (fun td => py_subscript td "name") tables = inr names).
  { apply map_sum_all. eapply Forall2_impl; [| exact Hnames].
    intros td n [d [-> Hn]]. simpl. unfold dict_item. now rewrite Hn. }
  unfold get_tables, client_of, table_names, dict_item.
  rewrite Hc. cbn [sum_bind]. rewrite Hdetails. cbn [sum_bind].
  rewrite Hschema. cbn [sum_bind py_subscript]. unfold dict_item.
  rewrite Htables. cbn [sum_bind py_iter]. rewrite Hmap. cbn [sum_bind].
  rewrite Hdf. reflexivity.
Qed.

Lemma get_tables_lists_names_witness :
  get_tables (fun _ => inr sample_details) one_column_frame sample_handler =
  Returned (Response_TABLE
              (mkDataFrame [("TABLE_NAME", [VStr "docs"; VStr "notes"])])).
Proof.
  apply (get_tables_lists_names
           (fun _ => inr sample_details) one_column_frame sample_handler
           (mkClient (_client_config sample_handler)) sample_details
           [ ("tables",
              VList [ VDict [("name", VStr "docs"); ("columns", VList [])];
                      VDict [("name", VStr "notes"); ("columns", VList [])] ]) ]
           [ VDict [("name", VStr "docs"); ("columns", VList [])];
             VDict [("name", VStr "notes"); ("columns", VList [])] ]
           [VStr "docs"; VStr "notes"]);
    try reflexivity.
  repeat constructor; eexists; split; reflexivity.
Defined.

(** X19: [get_tables] never raises, and a listing is all or nothing.
    The response of the store is not tested for success: a body without
    [schema] (such as the body of a refused request) gives the error
    response whose cause is the missing key ['schema'], not the message
    of the store; and one table entry without a [name] fails the whole
    listing with the missing key ['name']. *)
Theorem get_tables_failures :
  forall (be_get_details : Client -> exn + dict pyval)
         (pd_DataFrame_rows : list string -> list pyval -> exn + DataFrame)
         (self : XataHandler),
    (exists r, get_tables be_get_details pd_DataFrame_rows self = Returned r) /\
    (forall c details,
       _client self = Some c ->
       be_get_details c = inr details ->
       dict_get details "schema" = None ->
       get_tables be_get_details pd_DataFrame_rows self =
       Returned (Response_ERROR "Error getting list of tables: 'schema'")) /\
    (forall c details schema good bad rest names,
       _client self = Some c ->
       be_get_details c = inr details ->
       dict_get details "schema" = Some (VDict schema) ->
       dict_get schema "tables" = Some (VList (good ++ VDict bad :: rest)%list) ->
       Forall2 (fun table_data name =>
                  exists d, table_data = VDict d /\ dict_get d "name" = Some name)
               good names ->
       dict_get bad "name" = None ->
       get_tables be_get_details pd_DataFrame_rows self =
       Returned (Response_ERROR "Error getting list of tables: 'name'")).
Proof.
  intros be_gd pd self. split; [| split].
  - unfold get_tables.
    match goal with |- context [match ?x with inl _ => _ | inr _ => _ end] =>
      destruct x end; eauto.
  - intros c details Hc Hdetails Hschema.
    unfold get_tables, client_of, table_names, dict_item.
    rewrite Hc. cbn [sum_bind]. rewrite Hdetails. cbn [sum_bind].
    rewrite Hschema. reflexivity.
  - intros c details schema good bad rest names Hc Hdetails Hschema Htables Hgood Hbad.
    assert (Hmap : map_sum (fun td => py_subscript td "name")
                           (good ++ VDict bad :: rest)%list = inl (KeyError "name")).
    { apply (map_sum_first_failure _ good rest (VDict bad) names).
      - eapply Forall2_impl; [| exact Hgood].
        intros td n [d [-> Hn]]. simpl. unfold dict_item. now rewrite Hn.
      - simpl. unfold dict_item. now rewrite Hbad. }
    unfold get_tables, client_of, table_names, dict_item.
    rewrite Hc. cbn [sum_bind]. rewrite Hdetails. cbn [sum_bind].
    rewrite Hschema. cbn [sum_bind py_subscript]. unfold dict_item.
    rewrite Htables. cbn [sum_bind py_iter]. rewrite Hmap. reflexivity.
Qed.

Lemma get_tables_failures_witness :
  get_tables (fun _ => inr sample_error_body) one_column_frame sample_handler =
    Returned (Response_ERROR "Error getting list of tables: 'schema'") /\
  get_tables
    (fun _ => inr [("schema",
                    VDict [("tables",
                            VList [ VDict [("name", VStr "docs")];
                                    VDict [("id", VStr "t2")];
                                    VDict [("name", VStr "notes")] ])])])
    one_column_frame sample_handler =
    Returned (Response_ERROR "Error getting list of tables: 'name'").
Proof.
  split.
  - exact (proj1 (proj2 (get_tables_failures
                           (fun _ => inr sample_error_body) one_column_frame
                           sample_handler))
                 (mkClient (_client_config sample_handler)) sample_error_body
                 eq_refl eq_refl eq_refl).
  - apply (proj2 (proj2 (get_tables_failures _ one_column_frame sample_handler))
                 (mkClient (_client_config sample_handler))
                 [("schema",
                   VDict [("tables",
                           VList [ VDict [("name", VStr "docs")];
                                   VDict [("id", VStr "t2")];
                                   VDict [("name", VStr "notes")] ])])]
                 [("tables",
                   VList [ VDict [("name", VStr "docs")];
                           VDict [("id", VStr "t2")];
                           VDict [("name", VStr "notes")] ])]
                 [VDict [("name", VStr "docs")]] [("id", VStr "t2")]
                 [VDict [("name", VStr "notes")]] [VStr "docs"]);
      try reflexivity.
    repeat constructor. eexists; split; reflexivity.
Defined.
